(** * The Systeme.io publisher (agent1_core.py, firestore_client.py)

    A shallow embedding of the publishing script and of the document-store
    wrapper it builds at import time, with the properties of the
    specification proved over it.

    The script talks to four outside parties: the process environment, the
    file system and Firebase (at import), the rendering module
    [shop_renderer], and the remote site API through [requests.put].  Each
    is an oracle of the [World]; a computation reads the history of what
    happened so far, and returns a result (a value or a raised exception)
    together with the events it emitted. *)

From Stdlib Require Import String Ascii ZArith NArith List Bool Lia DecimalString.
Import ListNotations.

#[local] Set Warnings "-register-all".

#[local] Open Scope list_scope.
#[local] Open Scope string_scope.

(** ** Python strings and the values the script handles *)

Module Py.

(** A [str] is held as the bytes of its UTF-8 encoding. *)
Definition str := string.

Definition dq : str := String (ascii_of_nat 34) EmptyString.
Definition nl : str := String (ascii_of_nat 10) EmptyString.

(** [q s] is [s] between double quotes, as in an HTML attribute. *)
Definition q (s : str) : str := dq ++ s ++ dq.

(** A triple-quoted literal that opens with a line break and whose lines
    all end with one. *)
Definition template (lines : list str) : str :=
  nl ++ String.concat EmptyString (map (fun l => l ++ nl) lines).

(** The values that occur: [None], a [str], and a [dict] with [str] keys
    (insertion order kept, as Python does). *)
Inductive value : Type :=
| VNone
| VStr (s : str)
| VDict (items : list (str * value)).

(** What [os.getenv] returns. *)
Definition of_opt (o : option str) : value :=
  match o with None => VNone | Some s => VStr s end.

(** Truth value, as [if x] and [not x] take it. *)
Definition truthy (v : value) : bool :=
  match v with
  | VNone => false
  | VStr s => negb (String.eqb s EmptyString)
  | VDict items => match items with [] => false | _ => true end
  end.

Definition falsy (v : value) : bool := negb (truthy v).

(** [format(x)] inside an f-string, for what [os.getenv] returns. *)
Definition fmt (x : option str) : str :=
  match x with
  | None => "None"
  | Some s => s
  end.

(** [str(n)] for an [int]. *)
Definition fmt_int (n : Z) : str := NilZero.string_of_int (Z.to_int n).

(** *** [json.dumps] with its default options *)

Definition hex_digit (n : N) : ascii :=
  ascii_of_N (if (n <? 10)%N then 48 + n else 87 + n)%N.

(** [chr 92 ++ "u{0:04x}".format(n)] *)
Definition u_escape (n : N) : str :=
  String (ascii_of_nat 92)
    (String "u"
      (String (hex_digit (N.land (N.shiftr n 12) 15))
        (String (hex_digit (N.land (N.shiftr n 8) 15))
          (String (hex_digit (N.land (N.shiftr n 4) 15))
            (String (hex_digit (N.land n 15)) EmptyString))))).

Definition backslash (c : ascii) : str :=
  String (ascii_of_nat 92) (String c EmptyString).

(** [ESCAPE_ASCII]'s replacement of one code point: printable ASCII other
    than the quote and the backslash stays; the short escapes; the rest
    as one escape of four hex digits, or a surrogate pair from 0x10000. *)
Definition escape_code_point (n : N) : str :=
  if (n =? 34)%N then backslash (ascii_of_nat 34)
  else if (n =? 92)%N then backslash (ascii_of_nat 92)
  else if (n =? 8)%N then backslash "b"
  else if (n =? 12)%N then backslash "f"
  else if (n =? 10)%N then backslash "n"
  else if (n =? 13)%N then backslash "r"
  else if (n =? 9)%N then backslash "t"
  else if ((32 <=? n) && (n <=? 126))%N then String (ascii_of_N n) EmptyString
  else if (n <? 65536)%N then u_escape n
  else
    let m := (n - 65536)%N in
    u_escape (N.lor 55296 (N.land (N.shiftr m 10) 1023))
    ++ u_escape (N.lor 56320 (N.land m 1023)).

Definition continuation (c : ascii) : bool :=
  (N.land (N_of_ascii c) 192 =? 128)%N.

Definition low6 (c : ascii) : N := N.land (N_of_ascii c) 63.

(** The code points of a [str], read back from its UTF-8 bytes.  A byte
    that starts no well-formed sequence (no [str] has one) counts as the
    code point of its own value. *)
Fixpoint code_points (s : str) : list N :=
  match s with
  | EmptyString => []
  | String b0 rest0 =>
      let n0 := N_of_ascii b0 in
      let single := n0 :: code_points rest0 in
      if (n0 <? 192)%N then single
      else
        match rest0 with
        | String b1 rest1 =>
            if negb (continuation b1) then single
            else if (n0 <? 224)%N then
              (N.shiftl (N.land n0 31) 6 + low6 b1)%N :: code_points rest1
            else
              match rest1 with
              | String b2 rest2 =>
                  if negb (continuation b2) then single
                  else if (n0 <? 240)%N then
                    (N.shiftl (N.land n0 15) 12 + N.shiftl (low6 b1) 6
                     + low6 b2)%N :: code_points rest2
                  else
                    match rest2 with
                    | String b3 rest3 =>
                        if negb (continuation b3) then single
                        else
                          (N.shiftl (N.land n0 7) 18
                           + N.shiftl (low6 b1) 12
                           + N.shiftl (low6 b2) 6 + low6 b3)%N
                          :: code_points rest3
                    | EmptyString => single
                    end
              | EmptyString => single
              end
        | EmptyString => single
        end
  end.

(** [py_encode_basestring_ascii] *)
Definition encode_basestring_ascii (s : str) : str :=
  dq ++ String.concat EmptyString (map escape_code_point (code_points s)) ++ dq.

(** [json.dumps(v)]: [null], a string, or an object whose items are
    joined by a comma and a space, key and value by a colon and a space. *)
Fixpoint json_dumps (v : value) : str :=
  match v with
  | VNone => "null"
  | VStr s => encode_basestring_ascii s
  | VDict items =>
      "{" ++ String.concat ", "
               (map (fun kv => encode_basestring_ascii (fst kv) ++ ": "
                               ++ json_dumps (snd kv)) items)
          ++ "}"
  end.

End Py.

(** ** Exceptions, the outside world, and the events of a run *)

(** An instance of [Exception]: its class name and what [str(e)] gives.
    Whatever a library call raises is one; [KeyboardInterrupt] and
    [SystemExit], which the interpreter delivers, are not modelled. *)
Record exn : Type := { exc_type : Py.str; exc_str : Py.str }.

Definition RuntimeError (msg : Py.str) : exn :=
  {| exc_type := "RuntimeError"; exc_str := msg |}.

(** How a call ends. *)
Inductive outcome (A : Type) : Type :=
| Returned (a : A)
| Raised (e : exn).
Arguments Returned {A} a.
Arguments Raised {A} e.

(** The arguments of [requests.put] and the part of its answer that is read. *)
Record request : Type :=
  { url : Py.str; headers : Py.value; data : Py.str; timeout : Z }.

Record response : Type := { status_code : Z; text : Py.str }.

(** The functions of [shop_renderer] the publisher calls. *)
Inductive shop_renderer : Type :=
| get_featured_categories_html
| get_featured_products_html
| get_featured_bundles_html
| get_all_categories_html
| get_bundles_page_html.

(** What a run leaves behind, in order: the lines printed and logged, every
    call that leaves the process with how it ended, and, as a mark with no
    effect of its own, each entry into a function of the two modules with
    the arguments it was given. *)
Inductive event : Type :=
| EPrint (line : Py.str)
| ELogInfo (msg : Py.str)
| EEnter (fn : Py.str) (args : list Py.value)
| ERender (f : shop_renderer) (o : outcome Py.str)
| EPut (r : request) (o : outcome response)
| ECertificate (path : Py.str) (o : outcome unit)
| EInitializeApp (o : outcome unit)
| EFirestoreClient (o : outcome unit).

Definition trace := list event.

(** The oracles: [environ] is [os.environ] once [load_dotenv] has run,
    [path_exists] is [os.path.exists], [firebase_apps] tells whether
    [firebase_admin._apps] is non-empty; [certificate], [initialize_app]
    and [firestore_client] are the three calls into [firebase_admin];
    [render] is [shop_renderer] and [http_put] the remote API, which may
    answer each call differently and so see the history; [elapsed_2f] is
    the elapsed time as the last line of the script formats it. *)
Record World : Type :=
  { environ : Py.str -> option Py.str;
    path_exists : Py.str -> bool;
    firebase_apps : bool;
    certificate : Py.str -> outcome unit;
    initialize_app : outcome unit;
    firestore_client : outcome unit;
    render : shop_renderer -> trace -> outcome Py.str;
    http_put : request -> trace -> outcome response;
    elapsed_2f : Py.str }.

(** *** The monad of the script *)

Definition M (A : Type) : Type := World -> trace -> outcome A * trace.

Definition ret {A} (a : A) : M A := fun _ _ => (Returned a, []).

Definition bind {A B} (m : M A) (k : A -> M B) : M B :=
  fun w h =>
    match m w h with
    | (Returned a, d) => let (r, d') := k a w (h ++ d)%list in (r, (d ++ d')%list)
    | (Raised e, d) => (Raised e, d)
    end.

Definition raise {A} (e : exn) : M A := fun _ _ => (Raised e, []).

(** [try: body except Exception as e: handler(e)] *)
Definition try_except {A} (body : M A) (handler : exn -> M A) : M A :=
  fun w h =>
    match body w h with
    | (Returned a, d) => (Returned a, d)
    | (Raised e, d) => let (r, d') := handler e w (h ++ d)%list in (r, (d ++ d')%list)
    end.

Definition emit (e : event) : M unit := fun _ _ => (Returned tt, [e]).

(** A call into the world: the oracle's answer is the call's outcome. *)
Definition ask {A} (o : World -> trace -> outcome A) (ev : outcome A -> event)
  : M A :=
  fun w h => (o w h, [ev (o w h)]).

(** Reading the world leaves no event. *)
Definition read {A} (f : World -> A) : M A := fun w _ => (Returned (f w), []).

Declare Scope py_scope.
Delimit Scope py_scope with py.
Notation "x <- m ;; k" := (bind m (fun x => k))
  (at level 100, m at next level, right associativity) : py_scope.
Notation "m ;; k" := (bind m (fun _ => k))
  (at level 100, right associativity) : py_scope.
#[local] Open Scope py_scope.

Definition print (line : Py.str) : M unit := emit (EPrint line).
Definition enter (fn : Py.str) (args : list Py.value) : M unit :=
  emit (EEnter fn args).

(** [os.getenv(name, default)] and [os.path.exists(path)] *)
Definition getenv_default (name default : Py.str) : M Py.str :=
  read (fun w => match environ w name with Some s => s | None => default end).
Definition os_path_exists (path : Py.str) : M bool :=
  read (fun w => path_exists w path).

(** [requests.put(url, headers=..., data=..., timeout=...)] *)
Definition requests_put (r : request) : M response :=
  ask (fun w => http_put w r) (EPut r).

(** A call [shop_renderer.f()] *)
Definition call_renderer (f : shop_renderer) : M Py.str :=
  ask (fun w => render w f) (ERender f).

(** ** firestore_client.py *)

Module firestore_client.

Definition default_service_account_path : Py.str :=
  "/home/HUSINPY/Husin_Network/Keys/service_account.json".

(** [FirestoreClient.__init__]; the value is the [db] handle, opaque here. *)
Definition FirestoreClient (service_account_path : option Py.str) : M unit :=
  enter "FirestoreClient.__init__" [Py.of_opt service_account_path] ;;
  path <- match service_account_path with
          | Some p => if Py.truthy (Py.VStr p) then ret p
                      else getenv_default "SERVICE_ACCOUNT_PATH"
                                          default_service_account_path
          | None => getenv_default "SERVICE_ACCOUNT_PATH"
                                   default_service_account_path
          end ;;
  not_found <- (if Py.falsy (Py.VStr path) then ret true
                else there <- os_path_exists path ;; ret (negb there)) ;;
  if not_found then
    raise (RuntimeError ("Service account file not found: " ++ path))
  else
    apps <- read firebase_apps ;;
    (if negb apps then
       ask (fun w _ => certificate w path) (ECertificate path) ;;
       ask (fun w _ => initialize_app w) EInitializeApp ;;
       emit (ELogInfo "Initialized Firebase app with provided service account.")
     else
       emit (ELogInfo "Firebase app already initialized; reusing existing app.")) ;;
    ask (fun w _ => firestore_client w) EFirestoreClient.

End firestore_client.

(** ** agent1_core.py *)

Module agent1_core.

Import Py.

(** The names bound at module level from the environment. *)
Record Globals : Type :=
  { APP_ID : str;
    SERVICE_ACCOUNT_PATH : str;
    SYSTEME_API_KEY : option str;
    SYSTEME_API_BASE : str;
    SYSTEME_WEBSITE_ID : option str;
    SYSTEME_HOME_PAGE_ID : option str;
    SYSTEME_CATEGORIES_PAGE_ID : option str;
    SYSTEME_CATEGORY_TEMPLATE_ID : option str;
    SYSTEME_PRODUCTS_PAGE_ID : option str;
    SYSTEME_PRODUCT_TEMPLATE_ID : option str;
    SYSTEME_BUNDLES_PAGE_ID : option str;
    SYSTEME_BUNDLE_TEMPLATE_ID : option str;
    SYSTEME_SEARCH_PAGE_ID : option str;
    SYSTEME_CONTACT_PAGE_ID : option str;
    SYSTEME_TERMS_PAGE_ID : option str;
    SYSTEME_PRIVACY_PAGE_ID : option str }.

Definition or_default (o : option str) (default : str) : str :=
  match o with Some s => s | None => default end.

(** Lines 12 to 32. *)
Definition read_globals (w : World) : Globals :=
  {| APP_ID := or_default (environ w "APP_ID") "husin-network";
     SERVICE_ACCOUNT_PATH :=
       or_default (environ w "SERVICE_ACCOUNT_PATH")
         "/home/HUSINPY/Husin_Network/Keys/service_account.json";
     SYSTEME_API_KEY := environ w "SYSTEME_API_KEY";
     SYSTEME_API_BASE :=
       or_default (environ w "SYSTEME_API_BASE") "https://api.systeme.io";
     SYSTEME_WEBSITE_ID := environ w "SYSTEME_WEBSITE_ID";
     SYSTEME_HOME_PAGE_ID := environ w "SYSTEME_HOME_PAGE_ID";
     SYSTEME_CATEGORIES_PAGE_ID := environ w "SYSTEME_CATEGORIES_PAGE_ID";
     SYSTEME_CATEGORY_TEMPLATE_ID := environ w "SYSTEME_CATEGORY_TEMPLATE_ID";
     SYSTEME_PRODUCTS_PAGE_ID := environ w "SYSTEME_PRODUCTS_PAGE_ID";
     SYSTEME_PRODUCT_TEMPLATE_ID := environ w "SYSTEME_PRODUCT_TEMPLATE_ID";
     SYSTEME_BUNDLES_PAGE_ID := environ w "SYSTEME_BUNDLES_PAGE_ID";
     SYSTEME_BUNDLE_TEMPLATE_ID := environ w "SYSTEME_BUNDLE_TEMPLATE_ID";
     SYSTEME_SEARCH_PAGE_ID := environ w "SYSTEME_SEARCH_PAGE_ID";
     SYSTEME_CONTACT_PAGE_ID := environ w "SYSTEME_CONTACT_PAGE_ID";
     SYSTEME_TERMS_PAGE_ID := environ w "SYSTEME_TERMS_PAGE_ID";
     SYSTEME_PRIVACY_PAGE_ID := environ w "SYSTEME_PRIVACY_PAGE_ID" |}.

Section Functions.

Variable g : Globals.

Definition _systeme_headers : M value :=
  enter "_systeme_headers" [] ;;
  ret (VDict [("Content-Type", VStr "application/json");
              ("X-API-Key", of_opt (SYSTEME_API_KEY g))]).

Definition skip_line : str :=
  "[AGENT 01] Skipping page update (no page_id).".
Definition updated_line (page_id : option str) : str :=
  "[AGENT 01] Updated page " ++ fmt page_id ++ " successfully.".
Definition failed_line (page_id : option str) (resp : response) : str :=
  "[AGENT 01] Failed to update page " ++ fmt page_id ++ ". Status: "
  ++ fmt_int (status_code resp) ++ ", Body: " ++ text resp.
Definition error_line (page_id : option str) (e : exn) : str :=
  "[AGENT 01] ERROR updating page " ++ fmt page_id ++ ": " ++ exc_str e.

Definition page_url (page_id : option str) : str :=
  SYSTEME_API_BASE g ++ "/sites/" ++ fmt (SYSTEME_WEBSITE_ID g)
  ++ "/pages/" ++ fmt page_id.

Definition _update_page (page_id : option str) (html : str) : M unit :=
  enter "_update_page" [of_opt page_id; VStr html] ;;
  if falsy (of_opt page_id) then
    print skip_line
  else
    let url := page_url page_id in
    let payload := VDict [("content", VStr html)] in
    try_except
      (hdrs <- _systeme_headers ;;
       resp <- requests_put {| url := url; headers := hdrs;
                               data := json_dumps payload;
                               timeout := 60 |} ;;
       if (200 <=? status_code resp)%Z && (status_code resp <? 300)%Z then
         print (updated_line page_id)
       else
         print (failed_line page_id resp))
      (fun e => print (error_line page_id e)).

Definition home_template (featured_categories_html featured_products_html
                          featured_bundles_html : str) : str :=
  template
    [ "<div class=" ++ q "husin-home" ++ ">";
      "  <section class=" ++ q "hero" ++ ">";
      "    <h1>HUSIN — Curated Deals in Saudi Arabia</h1>";
      "    <p>Exclusive products, hot offers, and premium bundles. All prices in Saudi Riyal (SAR).</p>";
      "  </section>";
      EmptyString;
      "  <section class=" ++ q "section-block" ++ ">";
      "    <h2>Featured Categories</h2>";
      "    <div class=" ++ q "card-grid" ++ ">";
      "      " ++ featured_categories_html;
      "    </div>";
      "  </section>";
      EmptyString;
      "  <section class=" ++ q "section-block" ++ ">";
      "    <h2>Featured Products</h2>";
      "    <div class=" ++ q "card-grid" ++ ">";
      "      " ++ featured_products_html;
      "    </div>";
      "  </section>";
      EmptyString;
      "  <section class=" ++ q "section-block" ++ ">";
      "    <h2>Featured Bundles</h2>";
      "    <div class=" ++ q "card-grid" ++ ">";
      "      " ++ featured_bundles_html;
      "    </div>";
      "  </section>";
      "</div>" ].

Definition _build_home_page_html : M str :=
  enter "_build_home_page_html" [] ;;
  featured_categories_html <- call_renderer get_featured_categories_html ;;
  featured_products_html <- call_renderer get_featured_products_html ;;
  featured_bundles_html <- call_renderer get_featured_bundles_html ;;
  ret (home_template featured_categories_html featured_products_html
         featured_bundles_html).

Definition categories_template (categories_html : str) : str :=
  template
    [ "<div class=" ++ q "husin-categories" ++ ">";
      "  <h1>All Categories</h1>";
      "  <div class=" ++ q "card-grid" ++ ">";
      "    " ++ categories_html;
      "  </div>";
      "</div>" ].

Definition _build_categories_page_html : M str :=
  enter "_build_categories_page_html" [] ;;
  categories_html <- call_renderer get_all_categories_html ;;
  ret (categories_template categories_html).

Definition products_page : str :=
  template
    [ "<div class=" ++ q "husin-products" ++ ">";
      "  <h1>Our Products</h1>";
      "  <p>Browse curated products approved by HUSIN for quality, margin, and reliability.</p>";
      "</div>" ].

Definition _build_products_page_html : M str :=
  enter "_build_products_page_html" [] ;;
  ret products_page.

Definition bundles_template (bundles_html : str) : str :=
  template
    [ "<div class=" ++ q "husin-bundles" ++ ">";
      "  <h1>Bundles</h1>";
      "  <p>Save more with curated product bundles.</p>";
      "  <div class=" ++ q "card-grid" ++ ">";
      "    " ++ bundles_html;
      "  </div>";
      "</div>" ].

Definition _build_bundles_page_html : M str :=
  enter "_build_bundles_page_html" [] ;;
  bundles_html <- call_renderer get_bundles_page_html ;;
  ret (bundles_template bundles_html).

Definition search_page : str :=
  template
    [ "<div class=" ++ q "husin-search" ++ ">";
      "  <h1>Search Results</h1>";
      "  <div id=" ++ q "husin-search-results" ++ ">";
      "    <!-- Agent 1 renders search results server-side if needed -->";
      "  </div>";
      "</div>" ].

Definition _build_search_page_html : M str :=
  enter "_build_search_page_html" [] ;;
  ret search_page.

Definition static_template (title body : str) : str :=
  template
    [ "<div class=" ++ q "husin-static" ++ ">";
      "  <h1>" ++ title ++ "</h1>";
      "  <p>" ++ body ++ "</p>";
      "</div>" ].

Definition _build_static_page_html (title body : str) : M str :=
  enter "_build_static_page_html" [VStr title; VStr body] ;;
  ret (static_template title body).

Definition start_line : str :=
  ">> [AGENT 01] Publishing approved content to Systeme.io...".
Definition complete_line : str :=
  ">> [AGENT 01] Publish cycle complete.".

Definition contact_body : str :=
  "For inquiries, please reach out via the contact form on this page.".
Definition terms_body : str :=
  "These are the terms and conditions for using HUSIN services.".
Definition privacy_body : str :=
  "We respect your privacy and handle your data with care.".

(** The value [tt] stands for the [None] a function without a
    [return] value gives back. *)
Definition publish_all : M unit :=
  enter "publish_all" [] ;;
  print start_line ;;
  home_html <- _build_home_page_html ;;
  _update_page (SYSTEME_HOME_PAGE_ID g) home_html ;;
  categories_html <- _build_categories_page_html ;;
  _update_page (SYSTEME_CATEGORIES_PAGE_ID g) categories_html ;;
  products_html <- _build_products_page_html ;;
  _update_page (SYSTEME_PRODUCTS_PAGE_ID g) products_html ;;
  bundles_html <- _build_bundles_page_html ;;
  _update_page (SYSTEME_BUNDLES_PAGE_ID g) bundles_html ;;
  search_html <- _build_search_page_html ;;
  _update_page (SYSTEME_SEARCH_PAGE_ID g) search_html ;;
  (if truthy (of_opt (SYSTEME_CONTACT_PAGE_ID g)) then
     contact_html <- _build_static_page_html "Contact" contact_body ;;
     _update_page (SYSTEME_CONTACT_PAGE_ID g) contact_html
   else ret tt) ;;
  (if truthy (of_opt (SYSTEME_TERMS_PAGE_ID g)) then
     terms_html <- _build_static_page_html "Terms & Conditions" terms_body ;;
     _update_page (SYSTEME_TERMS_PAGE_ID g) terms_html
   else ret tt) ;;
  (if truthy (of_opt (SYSTEME_PRIVACY_PAGE_ID g)) then
     privacy_html <- _build_static_page_html "Privacy Policy" privacy_body ;;
     _update_page (SYSTEME_PRIVACY_PAGE_ID g) privacy_html
   else ret tt) ;;
  print complete_line.

End Functions.

(** The module body, top to bottom: the globals, the check of line 34,
    the document-store client of line 37, and, when the module runs as
    the script, the block under [if __name__ == "__main__"].  The
    elapsed time, a float, is printed as the world gives it. *)
Definition module_body (name : str) : M unit :=
  g <- read read_globals ;;
  (if falsy (of_opt (SYSTEME_API_KEY g))
      || falsy (of_opt (SYSTEME_WEBSITE_ID g))
   then raise (RuntimeError "Systeme.io env vars missing")
   else ret tt) ;;
  _db <- firestore_client.FirestoreClient (Some (SERVICE_ACCOUNT_PATH g)) ;;
  if String.eqb name "__main__" then
    print ">> [HUSIN] AGENT 01 (PUBLISHER) STARTED..." ;;
    publish_all g ;;
    elapsed <- read elapsed_2f ;;
    print (">> [HUSIN] AGENT 01 (PUBLISHER) FINISHED in " ++ elapsed ++ "s.")
  else ret tt.

End agent1_core.

(** ** Reading a trace *)

#[local] Open Scope list_scope.

(** The arguments of every entry into the function [fn], in order. *)
Fixpoint entries (fn : Py.str) (d : trace) : list (list Py.value) :=
  match d with
  | [] => []
  | EEnter fn' args :: d' =>
      if String.eqb fn fn' then args :: entries fn d' else entries fn d'
  | _ :: d' => entries fn d'
  end.

(** The requests put to the remote API, in order. *)
Fixpoint puts (d : trace) : list request :=
  match d with
  | [] => []
  | EPut r _ :: d' => r :: puts d'
  | _ :: d' => puts d'
  end.

(** A call into [shop_renderer] that raised. *)
Definition render_raised (ev : event) : bool :=
  match ev with
  | ERender _ (Raised _) => true
  | _ => false
  end.

(** ** The shape of a run *)

Section Shapes.

Import Py agent1_core.

Variable g : Globals.

(** The request [_update_page] builds for a page identifier and an HTML
    string, read off lines 52 to 58. *)
Definition update_request (page_id html : str) : request :=
  {| url := SYSTEME_API_BASE g ++ "/sites/"
            ++ fmt (SYSTEME_WEBSITE_ID g) ++ "/pages/" ++ page_id;
     headers := VDict [("Content-Type", VStr "application/json");
                       ("X-API-Key", of_opt (SYSTEME_API_KEY g))];
     data := json_dumps (VDict [("content", VStr html)]);
     timeout := 60 |}%string.

(** The line printed after the request, by how the request ended. *)
Definition report_line (page_id : str) (o : outcome response) : str :=
  match o with
  | Returned resp =>
      if (200 <=? status_code resp)%Z && (status_code resp <? 300)%Z
      then updated_line (Some page_id)
      else failed_line (Some page_id) resp
  | Raised e => error_line (Some page_id) e
  end.

(** The two ways one call of [_update_page] can go. *)
Inductive update_run (page_id : option str) (html : str) : trace -> Prop :=
| update_skipped :
    falsy (of_opt page_id) = true ->
    update_run page_id html
      [EEnter "_update_page" [of_opt page_id; VStr html]; EPrint skip_line]
| update_sent id o :
    page_id = Some id -> id <> EmptyString ->
    update_run page_id html
      [EEnter "_update_page" [VStr id; VStr html];
       EEnter "_systeme_headers" [];
       EPut (update_request id html) o;
       EPrint (report_line id o)].

(** An optional static page: nothing at all without an identifier, else
    the page is built and updated. *)
Inductive static_run (page_id : option str) (title body : str) : trace -> Prop :=
| static_absent :
    falsy (of_opt page_id) = true -> static_run page_id title body []
| static_present u :
    falsy (of_opt page_id) = false ->
    update_run page_id (static_template title body) u ->
    static_run page_id title body
      (EEnter "_build_static_page_html" [VStr title; VStr body] :: u).

Definition opening : trace :=
  [EEnter "publish_all" []; EPrint start_line].

Definition home_built (fc fp fb : str) : trace :=
  [EEnter "_build_home_page_html" [];
   ERender get_featured_categories_html (Returned fc);
   ERender get_featured_products_html (Returned fp);
   ERender get_featured_bundles_html (Returned fb)].

Definition categories_built (ac : str) : trace :=
  [EEnter "_build_categories_page_html" [];
   ERender get_all_categories_html (Returned ac)].

Definition products_built : trace := [EEnter "_build_products_page_html" []].

Definition bundles_built (bp : str) : trace :=
  [EEnter "_build_bundles_page_html" [];
   ERender get_bundles_page_html (Returned bp)].

Definition search_built : trace := [EEnter "_build_search_page_html" []].

(** Every run of [publish_all]: it completes, or it stops at the first
    call into [shop_renderer] that raises. *)
Inductive publish_run : outcome unit -> trace -> Prop :=
| publish_completed fc fp fb ac bp u1 u2 u3 u4 u5 t6 t7 t8 :
    update_run (SYSTEME_HOME_PAGE_ID g) (home_template fc fp fb) u1 ->
    update_run (SYSTEME_CATEGORIES_PAGE_ID g) (categories_template ac) u2 ->
    update_run (SYSTEME_PRODUCTS_PAGE_ID g) products_page u3 ->
    update_run (SYSTEME_BUNDLES_PAGE_ID g) (bundles_template bp) u4 ->
    update_run (SYSTEME_SEARCH_PAGE_ID g) search_page u5 ->
    static_run (SYSTEME_CONTACT_PAGE_ID g) "Contact" contact_body t6 ->
    static_run (SYSTEME_TERMS_PAGE_ID g) "Terms & Conditions" terms_body t7 ->
    static_run (SYSTEME_PRIVACY_PAGE_ID g) "Privacy Policy" privacy_body t8 ->
    publish_run (Returned tt)
      (opening ++ home_built fc fp fb ++ u1
       ++ categories_built ac ++ u2
       ++ products_built ++ u3
       ++ bundles_built bp ++ u4
       ++ search_built ++ u5
       ++ t6 ++ t7 ++ t8 ++ [EPrint complete_line])
| aborted_featured_categories e :
    publish_run (Raised e)
      (opening
       ++ [EEnter "_build_home_page_html" [];
           ERender get_featured_categories_html (Raised e)])
| aborted_featured_products fc e :
    publish_run (Raised e)
      (opening
       ++ [EEnter "_build_home_page_html" [];
           ERender get_featured_categories_html (Returned fc);
           ERender get_featured_products_html (Raised e)])
| aborted_featured_bundles fc fp e :
    publish_run (Raised e)
      (opening
       ++ [EEnter "_build_home_page_html" [];
           ERender get_featured_categories_html (Returned fc);
           ERender get_featured_products_html (Returned fp);
           ERender get_featured_bundles_html (Raised e)])
| aborted_all_categories fc fp fb u1 e :
    update_run (SYSTEME_HOME_PAGE_ID g) (home_template fc fp fb) u1 ->
    publish_run (Raised e)
      (opening ++ home_built fc fp fb ++ u1
       ++ [EEnter "_build_categories_page_html" [];
           ERender get_all_categories_html (Raised e)])
| aborted_bundles_page fc fp fb ac u1 u2 u3 e :
    update_run (SYSTEME_HOME_PAGE_ID g) (home_template fc fp fb) u1 ->
    update_run (SYSTEME_CATEGORIES_PAGE_ID g) (categories_template ac) u2 ->
    update_run (SYSTEME_PRODUCTS_PAGE_ID g) products_page u3 ->
    publish_run (Raised e)
      (opening ++ home_built fc fp fb ++ u1
       ++ categories_built ac ++ u2
       ++ products_built ++ u3
       ++ [EEnter "_build_bundles_page_html" [];
           ERender get_bundles_page_html (Raised e)]).

(** The eight logical pages, in the order [publish_all] goes through. *)
Inductive page : Type :=
| Home | Categories | Products | Bundles | Search
| Contact | Terms | Privacy.

Definition page_id (p : page) : option str :=
  match p with
  | Home => SYSTEME_HOME_PAGE_ID g
  | Categories => SYSTEME_CATEGORIES_PAGE_ID g
  | Products => SYSTEME_PRODUCTS_PAGE_ID g
  | Bundles => SYSTEME_BUNDLES_PAGE_ID g
  | Search => SYSTEME_SEARCH_PAGE_ID g
  | Contact => SYSTEME_CONTACT_PAGE_ID g
  | Terms => SYSTEME_TERMS_PAGE_ID g
  | Privacy => SYSTEME_PRIVACY_PAGE_ID g
  end.

(** The optional pages are the ones behind an [if] in [publish_all]. *)
Definition mandatory (p : page) : bool :=
  match p with
  | Contact | Terms | Privacy => false
  | _ => true
  end.

(** The function that builds the page, and the arguments it is given. *)
Definition builder (p : page) : str :=
  match p with
  | Home => "_build_home_page_html"
  | Categories => "_build_categories_page_html"
  | Products => "_build_products_page_html"
  | Bundles => "_build_bundles_page_html"
  | Search => "_build_search_page_html"
  | Contact | Terms | Privacy => "_build_static_page_html"
  end.

Definition builder_args (p : page) : list value :=
  match p with
  | Contact => [VStr "Contact"; VStr contact_body]
  | Terms => [VStr "Terms & Conditions"; VStr terms_body]
  | Privacy => [VStr "Privacy Policy"; VStr privacy_body]
  | _ => []
  end.

(** The calls into [shop_renderer] the builder makes. *)
Definition renderers (p : page) : list shop_renderer :=
  match p with
  | Home => [get_featured_categories_html; get_featured_products_html;
             get_featured_bundles_html]
  | Categories => [get_all_categories_html]
  | Bundles => [get_bundles_page_html]
  | _ => []
  end.

(** The HTML of the page, from what those calls returned. *)
Definition page_html (p : page) (rendered : list str) : str :=
  let at_ i := nth i rendered EmptyString in
  match p with
  | Home => home_template (at_ 0) (at_ 1) (at_ 2)
  | Categories => categories_template (at_ 0)
  | Products => products_page
  | Bundles => bundles_template (at_ 0)
  | Search => search_page
  | Contact => static_template "Contact" contact_body
  | Terms => static_template "Terms & Conditions" terms_body
  | Privacy => static_template "Privacy Policy" privacy_body
  end.

(** The events of rendering, when every call returns. *)
Definition rendering (p : page) (rendered : list str) : trace :=
  map (fun fs => ERender (fst fs) (Returned (snd fs)))
      (combine (renderers p) rendered).

(** The entry into [_update_page] for an optional page: there is one when
    its identifier is configured, and none otherwise. *)
Definition attempt_if_configured (p : page) : list (list value) :=
  if truthy (of_opt (page_id p))
  then [[of_opt (page_id p); VStr (page_html p [])]]
  else [].

(** How many pages are updated before [publish_all] makes a call into
    [shop_renderer]. *)
Definition updates_before (f : shop_renderer) : nat :=
  match f with
  | get_featured_categories_html
  | get_featured_products_html
  | get_featured_bundles_html => 0
  | get_all_categories_html => 1
  | get_bundles_page_html => 3
  end.

(** The line that reports the end of the publish cycle. *)
Definition is_completion (ev : event) : bool :=
  match ev with
  | EPrint line => String.eqb line complete_line
  | _ => false
  end.

End Shapes.

(** ** A sample installation *)

Module Sample.

Import Py.

Definition lookup (table : list (str * str)) (name : str) : option str :=
  option_map snd (find (fun kv => String.eqb (fst kv) name) table).

(** Key and site set, the home and search pages and the terms page
    configured, the other pages left out. *)
Definition environment : list (str * str) :=
  [ ("SYSTEME_API_KEY", "secret"); ("SYSTEME_WEBSITE_ID", "site-9");
    ("SYSTEME_HOME_PAGE_ID", "home-1"); ("SYSTEME_SEARCH_PAGE_ID", "search-5");
    ("SYSTEME_TERMS_PAGE_ID", "terms-7") ]%string.

Definition connection_error : exn :=
  {| exc_type := "ConnectionError"; exc_str := "connection refused" |}.

(** The renderer answers; the remote API refuses the connection for the
    home page, and answers 404 for any other page. *)
Definition world : World :=
  {| environ := lookup environment;
     path_exists := fun _ => true;
     firebase_apps := false;
     certificate := fun _ => Returned tt;
     initialize_app := Returned tt;
     firestore_client := Returned tt;
     render := fun _ _ => Returned "<a>item</a>"%string;
     http_put := fun r _ =>
       if String.eqb (url r) "https://api.systeme.io/sites/site-9/pages/home-1"
       then Raised connection_error
       else Returned {| status_code := 404; text := "not found" |};
     elapsed_2f := "0.42" |}.

(** The same, with a renderer that fails on the categories listing. *)
Definition world_renderer_fails : World :=
  {| environ := lookup environment;
     path_exists := fun _ => true;
     firebase_apps := false;
     certificate := fun _ => Returned tt;
     initialize_app := Returned tt;
     firestore_client := Returned tt;
     render := fun f _ =>
       match f with
       | get_all_categories_html =>
           Raised {| exc_type := "ValueError"; exc_str := "no categories" |}
       | _ => Returned "<a>item</a>"%string
       end;
     http_put := fun _ _ => Returned {| status_code := 200; text := "ok" |};
     elapsed_2f := "0.42" |}.

(** No website identifier in the environment. *)
Definition world_without_site : World :=
  {| environ := lookup [("SYSTEME_API_KEY", "secret")]%string;
     path_exists := fun _ => true;
     firebase_apps := false;
     certificate := fun _ => Returned tt;
     initialize_app := Returned tt;
     firestore_client := Returned tt;
     render := fun _ _ => Returned "<a>item</a>"%string;
     http_put := fun _ _ => Returned {| status_code := 200; text := "ok" |};
     elapsed_2f := "0.42" |}.

(** No file at the path of the service account. *)
Definition world_without_file : World :=
  {| environ := lookup environment;
     path_exists := fun _ => false;
     firebase_apps := false;
     certificate := fun _ => Returned tt;
     initialize_app := Returned tt;
     firestore_client := Returned tt;
     render := fun _ _ => Returned "<a>item</a>"%string;
     http_put := fun _ _ => Returned {| status_code := 200; text := "ok" |};
     elapsed_2f := "0.42" |}.

Definition globals : agent1_core.Globals := agent1_core.read_globals world.

End Sample.

(** The path [FirestoreClient.__init__] looks for, once the fallback of
    lines 21 to 25 has been applied to its argument. *)
Definition service_account_path_used (w : World) (arg : option Py.str) : Py.str :=
  match arg with
  | Some p =>
      if Py.truthy (Py.VStr p) then p
      else agent1_core.or_default (environ w "SERVICE_ACCOUNT_PATH")
             firestore_client.default_service_account_path
  | None =>
      agent1_core.or_default (environ w "SERVICE_ACCOUNT_PATH")
        firestore_client.default_service_account_path
  end.

(** ** Further readings of a trace, and further cases *)

(** The lines printed, in order. *)
Fixpoint prints (d : trace) : list Py.str :=
  match d with
  | [] => []
  | EPrint line :: d' => line :: prints d'
  | _ :: d' => prints d'
  end.

(** Printable ASCII, from the space to the tilde. *)
Definition printable (c : ascii) : bool :=
  ((32 <=? N_of_ascii c) && (N_of_ascii c <=? 126))%N.

Definition printable_ascii (s : Py.str) : bool :=
  forallb printable (list_ascii_of_string s).

(** The events [FirestoreClient.__init__] can leave. *)
Definition client_event (ev : event) : bool :=
  match ev with
  | EEnter fn _ => String.eqb fn "FirestoreClient.__init__"
  | ELogInfo _ | ECertificate _ _ | EInitializeApp _ | EFirestoreClient _ => true
  | EPrint _ | ERender _ _ | EPut _ _ => false
  end.

(** The same world with another environment. *)
Definition with_environ (env : Py.str -> option Py.str) (w : World) : World :=
  {| environ := env;
     path_exists := path_exists w;
     firebase_apps := firebase_apps w;
     certificate := certificate w;
     initialize_app := initialize_app w;
     firestore_client := firestore_client w;
     render := render w;
     http_put := http_put w;
     elapsed_2f := elapsed_2f w |}.

(** The pages in the order of [publish_all], and the identifiers of the
    ones that are configured. *)
Definition all_pages : list page :=
  [Home; Categories; Products; Bundles; Search; Contact; Terms; Privacy].

Definition configured_ids (g : agent1_core.Globals) : list (option Py.str) :=
  filter (fun id => Py.truthy (Py.of_opt id)) (map (page_id g) all_pages).

(** The place of a page in that order. *)
Definition page_index (p : page) : nat :=
  match p with
  | Home => 0 | Categories => 1 | Products => 2 | Bundles => 3 | Search => 4
  | Contact => 5 | Terms => 6 | Privacy => 7
  end.

(** An event that does not keep the run from updating the page [p]: any
    event but a call into [shop_renderer] that raises while [p] or a page
    before it is being built. *)
Definition spares (p : page) (ev : event) : bool :=
  match ev with
  | ERender f (Raised _) => Nat.ltb (page_index p) (updates_before f)
  | _ => true
  end.

(** The entries into [_update_page] of a run that completes, given what
    the five calls into [shop_renderer] returned. *)
Definition expected_attempts (g : agent1_core.Globals)
    (fc fp fb ac bp : Py.str) : list (list Py.value) :=
  [ [Py.of_opt (agent1_core.SYSTEME_HOME_PAGE_ID g);
     Py.VStr (agent1_core.home_template fc fp fb)];
    [Py.of_opt (agent1_core.SYSTEME_CATEGORIES_PAGE_ID g);
     Py.VStr (agent1_core.categories_template ac)];
    [Py.of_opt (agent1_core.SYSTEME_PRODUCTS_PAGE_ID g);
     Py.VStr agent1_core.products_page];
    [Py.of_opt (agent1_core.SYSTEME_BUNDLES_PAGE_ID g);
     Py.VStr (agent1_core.bundles_template bp)];
    [Py.of_opt (agent1_core.SYSTEME_SEARCH_PAGE_ID g);
     Py.VStr agent1_core.search_page] ]
  ++ attempt_if_configured g Contact
  ++ attempt_if_configured g Terms
  ++ attempt_if_configured g Privacy.

(** The two lines of the block under [if __name__ == "__main__"]. *)
Definition started_line : Py.str :=
  ">> [HUSIN] AGENT 01 (PUBLISHER) STARTED...".
Definition finished_line (elapsed : Py.str) : Py.str :=
  (">> [HUSIN] AGENT 01 (PUBLISHER) FINISHED in " ++ elapsed ++ "s.")%string.

(** What a page builder does: it enters, calls its renderers in their
    order, and either all of them return, and it returns the page made of
    what they returned, or it stops at the first one that raises, with
    that exception. *)
Definition builder_spec (p : page) (m : M Py.str) : Prop :=
  forall w h,
    (exists rendered,
        length rendered = length (renderers p)
        /\ m w h = (Returned (page_html p rendered),
                    EEnter (builder p) [] :: rendering p rendered))
    \/ (exists rendered f e,
           nth_error (renderers p) (length rendered) = Some f
           /\ m w h = (Raised e,
                       EEnter (builder p) [] :: rendering p rendered
                       ++ [ERender f (Raised e)])).

Module Cases.

Import Py.

Definition bad_certificate : exn :=
  {| exc_type := "ValueError"; exc_str := "Invalid certificate argument" |}.

(** The sample installation with the Firebase app already initialised. *)
Definition world_initialized : World :=
  {| environ := Sample.lookup Sample.environment;
     path_exists := fun _ => true;
     firebase_apps := true;
     certificate := fun _ => Raised bad_certificate;
     initialize_app := Returned tt;
     firestore_client := Returned tt;
     render := fun _ _ => Returned "<a>item</a>"%string;
     http_put := fun _ _ => Returned {| status_code := 200; text := "ok" |};
     elapsed_2f := "0.42" |}.

(** The sample installation with a file that is no service account. *)
Definition world_bad_certificate : World :=
  {| environ := Sample.lookup Sample.environment;
     path_exists := fun _ => true;
     firebase_apps := false;
     certificate := fun _ => Raised bad_certificate;
     initialize_app := Returned tt;
     firestore_client := Returned tt;
     render := fun _ _ => Returned "<a>item</a>"%string;
     http_put := fun _ _ => Returned {| status_code := 200; text := "ok" |};
     elapsed_2f := "0.42" |}.

(** An installation with no home page configured, and a renderer that
    fails on the bundles listing. *)
Definition environment_without_home : list (str * str) :=
  [ ("SYSTEME_API_KEY", "secret"); ("SYSTEME_WEBSITE_ID", "site-9");
    ("SYSTEME_SEARCH_PAGE_ID", "search-5");
    ("SYSTEME_TERMS_PAGE_ID", "terms-7") ]%string.

Definition world_bundles_fail : World :=
  {| environ := Sample.lookup environment_without_home;
     path_exists := fun _ => true;
     firebase_apps := false;
     certificate := fun _ => Returned tt;
     initialize_app := Returned tt;
     firestore_client := Returned tt;
     render := fun f _ =>
       match f with
       | get_bundles_page_html =>
           Raised {| exc_type := "ValueError"; exc_str := "no bundles" |}
       | _ => Returned "<a>item</a>"%string
       end;
     http_put := fun _ _ => Returned {| status_code := 200; text := "ok" |};
     elapsed_2f := "0.42" |}.

End Cases.

(** ** The JSON encoder on examples *)

Example json_dumps_plain :
  Py.json_dumps (Py.VDict [("content", Py.VStr "<p>hi</p>")]%string)
  = ("{" ++ Py.q "content" ++ ": " ++ Py.q "<p>hi</p>" ++ "}")%string.
Proof. reflexivity. Qed.

(** Quotes and line breaks are escaped, and a character outside ASCII
    (here the dash of the home page, U+2014) becomes a [u] escape. *)
Example json_dumps_escapes :
  Py.json_dumps (Py.VStr ("<h1 class=" ++ Py.q "t" ++ ">HUSIN — Deals</h1>"
                          ++ Py.nl)%string)
  = (Py.dq ++ "<h1 class=" ++ Py.backslash (ascii_of_nat 34) ++ "t"
     ++ Py.backslash (ascii_of_nat 34) ++ ">HUSIN " ++ Py.backslash "u"
     ++ "2014 Deals</h1>" ++ Py.backslash "n" ++ Py.dq)%string.
Proof. reflexivity. Qed.

(** ** Lemmas on traces *)

Lemma entries_app fn d1 d2 : entries fn (d1 ++ d2) = entries fn d1 ++ entries fn d2.
Proof.
  induction d1 as [|ev d1 IH]; [reflexivity|].
  destruct ev; simpl; auto.
  destruct (String.eqb fn fn0); simpl; now rewrite IH.
Qed.

Lemma puts_app d1 d2 : puts (d1 ++ d2) = puts d1 ++ puts d2.
Proof.
  induction d1 as [|ev d1 IH]; [reflexivity|].
  destruct ev; simpl; auto. now rewrite IH.
Qed.

(** ** The page updater *)

Section Updater.

Import Py agent1_core.

Variable g : Globals.


Lemma truthy_str s : truthy (VStr s) = true <-> s <> EmptyString.
Proof.
  simpl. destruct (String.eqb_spec s EmptyString); simpl; split; congruence.
Qed.

Lemma falsy_of_opt o :
  falsy (of_opt o) = true <-> o = None \/ o = Some EmptyString.
Proof.
  unfold falsy. destruct o as [s|]; simpl.
  - destruct (String.eqb_spec s EmptyString); simpl; split.
    + intros _. right. now subst.
    + reflexivity.
    + discriminate.
    + intros [H|H]; congruence.
  - split; auto.
Qed.

Lemma update_page_skip page_id html w h :
  falsy (of_opt page_id) = true ->
  _update_page g page_id html w h
  = (Returned tt,
     [EEnter "_update_page" [of_opt page_id; VStr html]; EPrint skip_line]).
Proof.
  intros F. unfold _update_page.
  cbv beta iota zeta delta [bind enter emit print]. now rewrite F.
Qed.

(** With an identifier, the outcome on record is the world's answer at
    the moment of the call. *)
Lemma update_page_sent id html w h :
  id <> EmptyString ->
  let o := http_put w (update_request g id html)
             ((h ++ [EEnter "_update_page" [VStr id; VStr html]])
              ++ [EEnter "_systeme_headers" []]) in
  _update_page g (Some id) html w h
  = (Returned tt,
     [EEnter "_update_page" [VStr id; VStr html];
      EEnter "_systeme_headers" [];
      EPut (update_request g id html) o;
      EPrint (report_line id o)]).
Proof.
  intros Hid o. apply truthy_str in Hid.
  unfold _update_page.
  cbv beta iota zeta delta
    [bind enter emit print try_except _systeme_headers ret requests_put ask].
  unfold falsy. change (of_opt (Some id)) with (VStr id). rewrite Hid.
  cbn [negb app].
  change (http_put w _ ((h ++ _) ++ _)) with o.
  change {| url := page_url g (Some id); headers := _; data := _; timeout := _ |}
    with (update_request g id html).
  destruct o as [resp|e]; cbn [report_line app]; [|reflexivity].
  destruct ((200 <=? status_code resp)%Z && (status_code resp <? 300)%Z);
    reflexivity.
Qed.

(** [_update_page] always returns, and its events are one of the two
    runs. *)
Lemma update_page_run page_id html w h :
  exists d, _update_page g page_id html w h = (Returned tt, d)
            /\ update_run g page_id html d.
Proof.
  destruct (falsy (of_opt page_id)) eqn:F.
  - eexists; split; [now apply update_page_skip | now apply update_skipped].
  - assert (exists id, page_id = Some id /\ id <> EmptyString) as (id & -> & Hid).
    { destruct page_id as [id|]; [|discriminate].
      exists id; split; [reflexivity|]. apply truthy_str.
      unfold falsy in F. change (of_opt (Some id)) with (VStr id) in F.
      now destruct (truthy (VStr id)). }
    eexists; split; [now apply update_page_sent | now eapply update_sent].
Qed.

(** A request on record in a run of [_update_page] is the one request of
    that run, and the run ends with the line that reports its outcome. *)
Lemma update_run_put page_id html d r o :
  update_run g page_id html d -> In (EPut r o) d ->
  exists id, page_id = Some id /\ id <> EmptyString
             /\ r = update_request g id html
             /\ d = [EEnter "_update_page" [VStr id; VStr html];
                     EEnter "_systeme_headers" [];
                     EPut r o;
                     EPrint (report_line id o)].
Proof.
  intros [F|id o' -> Hid] Hin.
  - destruct Hin as [H|[H|[]]]; discriminate.
  - destruct Hin as [H|[H|[H|[H|[]]]]]; try discriminate.
    injection H as <- <-. now exists id.
Qed.

(** C2. For a non-empty page identifier and any HTML string,
    [_update_page] sends exactly one PUT: to the URL
    base/sites/website_id/pages/page_id, with the JSON encoding of the
    one-key object that maps content to the HTML string as body, with
    the two headers Content-Type: application/json and X-API-Key: the
    configured key, and with a timeout of 60 seconds. *)
Theorem update_page_sends_one_put w h id html key site :
  id <> EmptyString ->
  SYSTEME_API_KEY g = Some key ->
  SYSTEME_WEBSITE_ID g = Some site ->
  puts (snd (_update_page g (Some id) html w h))
  = [ {| url := (SYSTEME_API_BASE g ++ "/sites/" ++ site ++ "/pages/" ++ id)%string;
         headers := VDict [("Content-Type", VStr "application/json");
                           ("X-API-Key", VStr key)];
         data := json_dumps (VDict [("content", VStr html)]);
         timeout := 60 |} ].
Proof.
  intros Hid Hkey Hsite.
  rewrite (update_page_sent id html w h Hid). cbn [snd puts].
  unfold update_request. now rewrite Hkey, Hsite.
Qed.

(** C3. With a page identifier that is [None] or empty, [_update_page]
    returns normally after printing the skip line, and puts nothing to
    the remote API. *)
Theorem update_page_without_id_skips w h page_id html :
  page_id = None \/ page_id = Some EmptyString ->
  _update_page g page_id html w h
  = (Returned tt,
     [EEnter "_update_page" [of_opt page_id; VStr html];
      EPrint "[AGENT 01] Skipping page update (no page_id)."])
  /\ puts (snd (_update_page g page_id html w h)) = [].
Proof.
  intros H. apply falsy_of_opt in H.
  rewrite (update_page_skip page_id html w h H). now split.
Qed.

(** C4. Whatever response the PUT of [_update_page] gets, the function
    returns normally: on a status from 200 to 299 its last line reports
    success, on any other status it reports the failure with the status
    and the body. *)
Theorem update_page_response_never_raises w h page_id html res d r resp :
  _update_page g page_id html w h = (res, d) ->
  In (EPut r (Returned resp)) d ->
  res = Returned tt
  /\ exists line,
       d = [EEnter "_update_page" [of_opt page_id; VStr html];
            EEnter "_systeme_headers" [];
            EPut r (Returned resp);
            EPrint line]
       /\ ((200 <= status_code resp < 300)%Z ->
           line = ("[AGENT 01] Updated page " ++ fmt page_id
                   ++ " successfully.")%string)
       /\ (~ (200 <= status_code resp < 300)%Z ->
           line = ("[AGENT 01] Failed to update page " ++ fmt page_id
                   ++ ". Status: " ++ fmt_int (status_code resp)
                   ++ ", Body: " ++ text resp)%string).
Proof.
  intros Hrun Hin.
  destruct (update_page_run page_id html w h) as (d' & Hd' & Hshape).
  rewrite Hd' in Hrun. injection Hrun as <- <-.
  destruct (update_run_put _ _ _ _ _ Hshape Hin) as (id & -> & _ & -> & ->).
  split; [reflexivity|]. eexists; split; [reflexivity|].
  cbn [report_line of_opt fmt].
  destruct (Z.leb_spec 200 (status_code resp));
    destruct (Z.ltb_spec (status_code resp) 300); cbn [andb];
    split; intros; try reflexivity; lia.
Qed.

(** C5. An exception raised by the PUT of [_update_page] is caught: the
    function prints the error line with the text of the exception and
    returns normally. *)
Theorem update_page_catches_request_exception w h page_id html res d r e :
  _update_page g page_id html w h = (res, d) ->
  In (EPut r (Raised e)) d ->
  res = Returned tt
  /\ d = [EEnter "_update_page" [of_opt page_id; VStr html];
          EEnter "_systeme_headers" [];
          EPut r (Raised e);
          EPrint ("[AGENT 01] ERROR updating page " ++ fmt page_id
                  ++ ": " ++ exc_str e)%string].
Proof.
  intros Hrun Hin.
  destruct (update_page_run page_id html w h) as (d' & Hd' & Hshape).
  rewrite Hd' in Hrun. injection Hrun as <- <-.
  destruct (update_run_put _ _ _ _ _ Hshape Hin) as (id & -> & _ & -> & ->).
  now split.
Qed.

End Updater.

(** ** The publisher *)

Section Publisher.

Import Py agent1_core.

Variable g : Globals.

Lemma static_on page_id title body u :
  truthy (of_opt page_id) = true ->
  update_run g page_id (static_template title body) u ->
  static_run g page_id title body
    (EEnter "_build_static_page_html" [VStr title; VStr body] :: u).
Proof.
  intros T H. apply static_present; [|exact H]. unfold falsy. now rewrite T.
Qed.

Lemma static_off page_id title body :
  truthy (of_opt page_id) = false -> static_run g page_id title body [].
Proof.
  intros T. apply static_absent. unfold falsy. now rewrite T.
Qed.

(** One step of the run: the next thing the world decides is split on. *)
Ltac run_step w :=
  match goal with
  | |- context [render w ?f ?hh] =>
      let s := fresh "s" in let e := fresh "e" in
      destruct (render w f hh) as [s|e]
  | |- context [_update_page g ?p ?html w ?hh] =>
      let u := fresh "u" in let Hu := fresh "Hu" in let Hrun := fresh "Hrun" in
      destruct (update_page_run g p html w hh) as (u & Hu & Hrun);
      rewrite Hu; clear Hu
  | |- context [truthy (of_opt ?p)] =>
      let T := fresh "T" in
      destruct (truthy (of_opt p)) eqn:T
  end;
  cbv beta iota zeta.

(** What is known of an optional page at the end of a run. *)
Ltac static_fact p title body :=
  match goal with
  | T : truthy (of_opt p) = true,
    H : update_run g p (static_template title body) ?u |- _ =>
      constr:(static_on p title body u T H)
  | T : truthy (of_opt p) = false |- _ =>
      constr:(static_off p title body T)
  end.

Ltac run_completed :=
  let S6 := static_fact (SYSTEME_CONTACT_PAGE_ID g) "Contact"%string contact_body in
  let S7 := static_fact (SYSTEME_TERMS_PAGE_ID g) "Terms & Conditions"%string
              terms_body in
  let S8 := static_fact (SYSTEME_PRIVACY_PAGE_ID g) "Privacy Policy"%string
              privacy_body in
  match goal with
  | H1 : update_run g (SYSTEME_HOME_PAGE_ID g) _ _,
    H2 : update_run g (SYSTEME_CATEGORIES_PAGE_ID g) _ _,
    H3 : update_run g (SYSTEME_PRODUCTS_PAGE_ID g) _ _,
    H4 : update_run g (SYSTEME_BUNDLES_PAGE_ID g) _ _,
    H5 : update_run g (SYSTEME_SEARCH_PAGE_ID g) _ _ |- _ =>
      exact (publish_completed g _ _ _ _ _ _ _ _ _ _ _ _ _
               H1 H2 H3 H4 H5 S6 S7 S8)
  end.

(** Every run of [publish_all] has one of the shapes of [publish_run]. *)
Lemma publish_all_run w h :
  publish_run g (fst (publish_all g w h)) (snd (publish_all g w h)).
Proof.
  unfold publish_all, _build_home_page_html, _build_categories_page_html,
    _build_products_page_html, _build_bundles_page_html,
    _build_search_page_html, _build_static_page_html.
  cbv beta iota zeta delta [bind ret emit print enter ask call_renderer].
  repeat run_step w; cbn [fst snd].
  all: rewrite <- ?app_assoc; cbn [app].
  all: first [ run_completed | econstructor; eassumption ].
Qed.

Lemma in_entries fn args d :
  In (EEnter fn args) d -> In args (entries fn d).
Proof.
  induction d as [|ev d IH]; [easy|].
  intros [->|H]; simpl.
  - rewrite String.eqb_refl. now left.
  - destruct ev; auto. destruct (String.eqb fn fn0); [right|]; auto.
Qed.

Lemma falsy_not_sent id : falsy (of_opt (Some id)) = true -> id <> EmptyString -> False.
Proof.
  intros F Hid. apply falsy_of_opt in F as [F|F]; congruence.
Qed.

Lemma falsy_truthy v : falsy v = true <-> truthy v = false.
Proof. unfold falsy. destruct (truthy v); simpl; split; congruence. Qed.

(** What one call of [_update_page] leaves in the trace. *)
Lemma update_run_entries page_id html u :
  update_run g page_id html u ->
  entries "_update_page" u = [[of_opt page_id; VStr html]].
Proof. now intros [F|id o -> Hid]. Qed.

Lemma update_run_builds_nothing page_id html u :
  update_run g page_id html u -> entries "_build_static_page_html" u = [].
Proof. now intros [F|id o -> Hid]. Qed.

Lemma update_run_puts page_id html u :
  update_run g page_id html u ->
  map url (puts u)
  = map (page_url g) (filter (fun id => truthy (of_opt id)) [page_id]).
Proof.
  intros [F|id o -> Hid]; cbn [puts map filter of_opt].
  - apply falsy_truthy in F. now rewrite F.
  - apply truthy_str in Hid. now rewrite Hid.
Qed.

Lemma report_line_not_completion id o :
  String.eqb (report_line id o) complete_line = false.
Proof.
  destruct o as [resp|e]; cbn [report_line]; [|reflexivity].
  now destruct ((200 <=? status_code resp)%Z && (status_code resp <? 300)%Z).
Qed.

Lemma update_run_quiet page_id html u :
  update_run g page_id html u ->
  existsb render_raised u = false /\ existsb is_completion u = false.
Proof.
  intros [F|id o -> Hid]; split; try reflexivity.
  cbn [existsb is_completion orb]. now rewrite report_line_not_completion.
Qed.

(** The same for an optional page. *)
Lemma static_run_entries page_id title body t :
  static_run g page_id title body t ->
  entries "_update_page" t
  = if truthy (of_opt page_id)
    then [[of_opt page_id; VStr (static_template title body)]] else [].
Proof.
  intros [F|u F H].
  - apply falsy_truthy in F. now rewrite F.
  - unfold falsy in F. destruct (truthy (of_opt page_id)); [|discriminate].
    cbn [entries String.eqb Ascii.eqb Bool.eqb]. now apply update_run_entries.
Qed.

Lemma static_run_builds page_id title body t :
  static_run g page_id title body t ->
  entries "_build_static_page_html" t
  = if truthy (of_opt page_id) then [[VStr title; VStr body]] else [].
Proof.
  intros [F|u F H].
  - apply falsy_truthy in F. now rewrite F.
  - unfold falsy in F. destruct (truthy (of_opt page_id)); [|discriminate].
    simpl. now rewrite (update_run_builds_nothing _ _ _ H).
Qed.

Lemma static_run_puts page_id title body t :
  static_run g page_id title body t ->
  map url (puts t)
  = map (page_url g) (filter (fun id => truthy (of_opt id)) [page_id]).
Proof.
  intros [F|u F H].
  - apply falsy_truthy in F. cbn [filter]. now rewrite F.
  - cbn [puts]. now apply update_run_puts in H.
Qed.

Lemma static_run_quiet page_id title body t :
  static_run g page_id title body t ->
  existsb render_raised t = false /\ existsb is_completion t = false.
Proof.
  intros [F|u F H]; [now split|]. now apply update_run_quiet in H.
Qed.

(** A run completes exactly when no call into [shop_renderer] raised. *)
Lemma publish_run_raised res d :
  publish_run g res d ->
  existsb render_raised d
  = match res with Returned _ => false | Raised _ => true end.
Proof.
  intros H; destruct H;
    repeat match goal with
           | H : update_run g _ _ _ |- _ => apply update_run_quiet in H as [H _]
           | H : static_run g _ _ _ _ |- _ => apply static_run_quiet in H as [H _]
           end;
    rewrite ?existsb_app; cbn [existsb opening home_built categories_built
      products_built bundles_built search_built render_raised app orb];
    repeat match goal with H : existsb render_raised _ = false |- _ =>
             rewrite H; clear H end;
    reflexivity.
Qed.

Lemma publish_all_completes w h res d :
  publish_all g w h = (res, d) ->
  existsb render_raised d = false ->
  publish_run g (Returned tt) d.
Proof.
  intros Hrun Hquiet. pose proof (publish_all_run w h) as H.
  rewrite Hrun in H. cbn [fst snd] in H.
  pose proof (publish_run_raised _ _ H) as R. rewrite Hquiet in R.
  destruct res as [[]|e]; [exact H | discriminate].
Qed.

(** A run that raises stops at a call into [shop_renderer]: that call is
    its last event, none raised before it, the completion line was not
    printed, and the pages updated are the ones that come before it. *)
Lemma publish_run_aborted e d :
  publish_run g (Raised e) d ->
  exists f before,
    d = before ++ [ERender f (Raised e)]
    /\ existsb render_raised before = false
    /\ existsb is_completion before = false
    /\ length (entries "_update_page" before) = updates_before f.
Proof.
  intros H. inversion H as [| |fc|fc fp|fc fp fb u1 ? H1
                            |fc fp fb ac u1 u2 u3 ? H1 H2 H3]; subst.
  - exists get_featured_categories_html,
      (opening ++ [EEnter "_build_home_page_html" []]).
    now repeat split.
  - exists get_featured_products_html,
      (opening ++ [EEnter "_build_home_page_html" [];
                   ERender get_featured_categories_html (Returned fc)]).
    now repeat split.
  - exists get_featured_bundles_html,
      (opening ++ [EEnter "_build_home_page_html" [];
                   ERender get_featured_categories_html (Returned fc);
                   ERender get_featured_products_html (Returned fp)]).
    now repeat split.
  - exists get_all_categories_html,
      (opening ++ home_built fc fp fb ++ u1
       ++ [EEnter "_build_categories_page_html" []]).
    pose proof (update_run_entries _ _ _ H1) as E1.
    apply update_run_quiet in H1 as [Q1 C1].
    repeat split.
    + now rewrite <- !app_assoc.
    + rewrite !existsb_app, Q1. reflexivity.
    + rewrite !existsb_app, C1. reflexivity.
    + rewrite !entries_app, E1. reflexivity.
  - exists get_bundles_page_html,
      (opening ++ home_built fc fp fb ++ u1 ++ categories_built ac ++ u2
       ++ products_built ++ u3 ++ [EEnter "_build_bundles_page_html" []]).
    pose proof (update_run_entries _ _ _ H1) as E1.
    pose proof (update_run_entries _ _ _ H2) as E2.
    pose proof (update_run_entries _ _ _ H3) as E3.
    apply update_run_quiet in H1 as [Q1 C1].
    apply update_run_quiet in H2 as [Q2 C2].
    apply update_run_quiet in H3 as [Q3 C3].
    repeat split.
    + now rewrite <- !app_assoc.
    + rewrite !existsb_app, Q1, Q2, Q3. reflexivity.
    + rewrite !existsb_app, C1, C2, C3. reflexivity.
    + rewrite !entries_app, E1, E2, E3. reflexivity.
Qed.

Lemma existsb_false_not_in (P : event -> bool) d ev :
  existsb P d = false -> P ev = true -> ~ In ev d.
Proof.
  intros H HP Hin.
  assert (existsb P d = true) by (apply existsb_exists; eauto). congruence.
Qed.

(** A static page is built only for an optional page whose identifier is
    configured. *)
Lemma publish_run_static_builds res d args :
  publish_run g res d ->
  In args (entries "_build_static_page_html" d) ->
  exists p, mandatory p = false /\ args = builder_args p
            /\ truthy (of_opt (page_id g p)) = true.
Proof.
  intros H; destruct H;
    repeat match goal with
           | H : update_run g _ _ _ |- _ =>
               apply update_run_builds_nothing in H
           | H : static_run g _ _ _ _ |- _ =>
               apply static_run_builds in H
           end;
    rewrite !entries_app;
    repeat match goal with
           | H : entries "_build_static_page_html" _ = _ |- _ =>
               rewrite H; clear H
           end;
    cbn [opening home_built categories_built products_built bundles_built
           search_built entries app String.eqb Ascii.eqb Bool.eqb];
    try easy.
  rewrite app_nil_r. intros Hin.
  apply in_app_or in Hin as [Hin|Hin]; [|apply in_app_or in Hin as [Hin|Hin]];
    [ exists Contact | exists Terms | exists Privacy ];
    cbn [page_id mandatory builder_args];
    match goal with
    | H : In _ (if ?c then _ else _) |- _ =>
        destruct c; [destruct H as [<-|[]]|destruct H]
    end;
    now repeat split.
Qed.

Lemma update_run_falsy page_id html u :
  falsy (of_opt page_id) = true ->
  update_run g page_id html u ->
  u = [EEnter "_update_page" [of_opt page_id; VStr html]; EPrint skip_line].
Proof.
  intros F [_|id o -> Hid]; [reflexivity|]. now destruct (falsy_not_sent id).
Qed.

Lemma update_run_no_raise page_id html u f e :
  update_run g page_id html u -> ~ In (ERender f (Raised e)) u.
Proof.
  intros H. apply update_run_quiet in H as [Q _].
  now apply (existsb_false_not_in _ _ _ Q).
Qed.

Ltac entries_of_runs :=
  rewrite ?entries_app;
  repeat match goal with
         | H : update_run g _ _ _ |- _ =>
             rewrite (update_run_entries _ _ _ H); clear H
         | H : static_run g _ _ _ _ |- _ =>
             rewrite (static_run_entries _ _ _ _ H); clear H
         end.

Ltac only_raise Hin :=
  rewrite ?in_app_iff in Hin;
  cbn [opening home_built categories_built products_built bundles_built
         search_built In] in Hin;
  repeat match goal with
         | H : _ \/ _ |- _ => destruct H
         | H : False |- _ => destruct H
         | H : In _ ?u, Hr : update_run g _ _ ?u |- _ =>
             exfalso; exact (update_run_no_raise _ _ _ _ _ Hr H)
         end;
  try discriminate; try congruence.

(** The entries into [_update_page] of any run: all the expected ones
    when the run completes, and the ones of the pages before the builder
    that was stopped when it does not. *)
Lemma publish_run_attempts res d :
  publish_run g res d ->
  exists fc fp fb ac bp,
    match res with
    | Returned _ =>
        entries "_update_page" d = expected_attempts g fc fp fb ac bp
    | Raised _ =>
        exists f,
          (forall f' e', In (ERender f' (Raised e')) d -> f' = f)
          /\ entries "_update_page" d
             = firstn (updates_before f) (expected_attempts g fc fp fb ac bp)
    end.
Proof.
  intros H. destruct H.
  - exists fc, fp, fb, ac, bp. entries_of_runs.
    change (entries "_update_page" [EPrint complete_line])
      with (@nil (list value)).
    rewrite app_nil_r. reflexivity.
  - exists EmptyString, EmptyString, EmptyString, EmptyString, EmptyString,
      get_featured_categories_html.
    split; [intros f' e' Hin; only_raise Hin | reflexivity].
  - exists fc, EmptyString, EmptyString, EmptyString, EmptyString,
      get_featured_products_html.
    split; [intros f' e' Hin; only_raise Hin | reflexivity].
  - exists fc, fp, EmptyString, EmptyString, EmptyString,
      get_featured_bundles_html.
    split; [intros f' e' Hin; only_raise Hin | reflexivity].
  - exists fc, fp, fb, EmptyString, EmptyString, get_all_categories_html.
    split; [intros f' e' Hin; only_raise Hin | entries_of_runs; reflexivity].
  - exists fc, fp, fb, ac, EmptyString, get_bundles_page_html.
    split; [intros f' e' Hin; only_raise Hin | entries_of_runs; reflexivity].
Qed.

(** C1, as amended. In any run of [publish_all] there are five results
    of the renderer such that: when no call into [shop_renderer] raised,
    [_update_page] is entered for the home page, the categories index,
    the products index, the bundles index and the search page, in that
    order and whatever became of the updates before, and after them for
    the contact, terms and privacy pages, each exactly when its
    identifier is configured, and the requests put to the remote API
    are, in the same order, those of the pages whose identifier is
    configured; and when a call into [shop_renderer] raised, the entries
    into [_update_page] are, in order, those of the pages that come
    before the page that was being built, and no others. *)
Theorem publish_all_attempts_pages_in_order w h res d :
  publish_all g w h = (res, d) ->
  exists fc fp fb ac bp,
    let attempts :=
      [ [of_opt (SYSTEME_HOME_PAGE_ID g); VStr (home_template fc fp fb)];
        [of_opt (SYSTEME_CATEGORIES_PAGE_ID g); VStr (categories_template ac)];
        [of_opt (SYSTEME_PRODUCTS_PAGE_ID g); VStr products_page];
        [of_opt (SYSTEME_BUNDLES_PAGE_ID g); VStr (bundles_template bp)];
        [of_opt (SYSTEME_SEARCH_PAGE_ID g); VStr search_page] ]
      ++ attempt_if_configured g Contact
      ++ attempt_if_configured g Terms
      ++ attempt_if_configured g Privacy in
    (existsb render_raised d = false ->
     entries "_update_page" d = attempts
     /\ map url (puts d)
        = map (page_url g)
            (filter (fun id => truthy (of_opt id))
               [ SYSTEME_HOME_PAGE_ID g; SYSTEME_CATEGORIES_PAGE_ID g;
                 SYSTEME_PRODUCTS_PAGE_ID g; SYSTEME_BUNDLES_PAGE_ID g;
                 SYSTEME_SEARCH_PAGE_ID g; SYSTEME_CONTACT_PAGE_ID g;
                 SYSTEME_TERMS_PAGE_ID g; SYSTEME_PRIVACY_PAGE_ID g ]))
    /\ (forall f e,
          In (ERender f (Raised e)) d ->
          entries "_update_page" d = firstn (updates_before f) attempts).
Proof.
  intros Hrun.
  pose proof (publish_all_run w h) as H. rewrite Hrun in H. cbn [fst snd] in H.
  pose proof (publish_run_raised _ _ H) as R.
  destruct (publish_run_attempts _ _ H) as (fc & fp & fb & ac & bp & A).
  exists fc, fp, fb, ac, bp. cbv zeta.
  change ([ [of_opt (SYSTEME_HOME_PAGE_ID g); VStr (home_template fc fp fb)];
            [of_opt (SYSTEME_CATEGORIES_PAGE_ID g);
             VStr (categories_template ac)];
            [of_opt (SYSTEME_PRODUCTS_PAGE_ID g); VStr products_page];
            [of_opt (SYSTEME_BUNDLES_PAGE_ID g); VStr (bundles_template bp)];
            [of_opt (SYSTEME_SEARCH_PAGE_ID g); VStr search_page] ]
          ++ attempt_if_configured g Contact
          ++ attempt_if_configured g Terms
          ++ attempt_if_configured g Privacy)
    with (expected_attempts g fc fp fb ac bp).
  destruct res as [[]|e0].
  - split.
    + intros _. split; [exact A|].
      inversion H as [fc' fp' fb' ac' bp' u1 u2 u3 u4 u5 t6 t7 t8
                        H1 H2 H3 H4 H5 H6 H7 H8| | | | |]; subst.
      rewrite !puts_app, !map_app.
      rewrite (update_run_puts _ _ _ H1), (update_run_puts _ _ _ H2),
        (update_run_puts _ _ _ H3), (update_run_puts _ _ _ H4),
        (update_run_puts _ _ _ H5), (static_run_puts _ _ _ _ H6),
        (static_run_puts _ _ _ _ H7), (static_run_puts _ _ _ _ H8).
      cbn [opening home_built categories_built products_built bundles_built
             search_built puts].
      change (map url []) with (@nil str). cbn [app]. rewrite app_nil_r.
      rewrite <- !map_app, <- !filter_app. reflexivity.
    + intros f e Hin. exfalso.
      now apply (existsb_false_not_in _ _ _ R) in Hin.
  - destruct A as (f0 & Honly & A). split.
    + intros Q. rewrite Q in R. discriminate R.
    + intros f e Hin. now rewrite (Honly f e Hin).
Qed.

(** C7, as amended. In a run of [publish_all] in which no call into
    [shop_renderer] raises, whatever the remote API does with the
    updates, [publish_all] returns normally, with no value, and the last
    thing it does is to print that the publish cycle is complete. *)
Theorem publish_all_reports_completion w h res d :
  publish_all g w h = (res, d) ->
  existsb render_raised d = false ->
  res = Returned tt
  /\ exists before, d = before ++ [EPrint ">> [AGENT 01] Publish cycle complete."].
Proof.
  intros Hrun Hquiet.
  pose proof (publish_all_completes w h res d Hrun Hquiet) as H.
  pose proof (publish_all_run w h) as H'. rewrite Hrun in H'. cbn [fst snd] in H'.
  pose proof (publish_run_raised _ _ H') as R. rewrite Hquiet in R.
  split; [destruct res as [[]|e]; [reflexivity | discriminate]|].
  inversion H as [fc fp fb ac bp u1 u2 u3 u4 u5 t6 t7 t8
                    H1 H2 H3 H4 H5 H6 H7 H8| | | | |]; subst.
  eexists. rewrite !app_assoc. reflexivity.
Qed.

(** C9. When a call into [shop_renderer] made while a page is built
    raises, the exception comes out of [publish_all]: the run ends with
    that call, so the pages from the one being built on are not updated,
    and the line that reports completion is not printed.  (An exception
    of the PUT, by contrast, stays inside [_update_page].) *)
Theorem publish_all_renderer_exception_propagates w h res d f e :
  publish_all g w h = (res, d) ->
  In (ERender f (Raised e)) d ->
  res = Raised e
  /\ (exists before, d = before ++ [ERender f (Raised e)])
  /\ ~ In (EPrint ">> [AGENT 01] Publish cycle complete.") d
  /\ length (entries "_update_page" d) = updates_before f.
Proof.
  intros Hrun Hin.
  pose proof (publish_all_run w h) as H. rewrite Hrun in H. cbn [fst snd] in H.
  pose proof (publish_run_raised _ _ H) as R.
  assert (existsb render_raised d = true) as Q
    by (apply existsb_exists; exists (ERender f (Raised e)); now split).
  rewrite Q in R. destruct res as [[]|e0]; [discriminate|].
  destruct (publish_run_aborted _ _ H) as (f0 & before & -> & Qb & Cb & Lb).
  assert (f = f0 /\ e = e0) as [-> ->].
  { apply in_app_or in Hin as [Hin|[Hin|[]]].
    - now apply (existsb_false_not_in _ _ _ Qb) in Hin.
    - now injection Hin. }
  repeat split.
  - now exists before.
  - intros Hc. apply in_app_or in Hc as [Hc|[Hc|[]]]; [|discriminate].
    now apply (existsb_false_not_in _ _ _ Cb) in Hc.
  - rewrite entries_app, length_app, Lb. simpl. lia.
Qed.

(** The last event of a trace is in it. *)
Ltac last_event :=
  repeat first [ left; reflexivity | apply in_or_app; right | right ].

(** C10, as amended. Take a page whose identifier is not configured.
    If it is one of the five mandatory pages, then in a run in which no
    call into [shop_renderer] raises while that page or a page before it
    is being built, the page is built all the same: its builder is
    entered and makes its calls into [shop_renderer], [_update_page] is
    entered with the HTML so built, and prints the skip line with no
    request in between.  If it is one of the three optional pages, its
    builder is not entered in any run. *)
Theorem publish_all_builds_mandatory_page_without_id w h res d p :
  publish_all g w h = (res, d) ->
  page_id g p = None \/ page_id g p = Some EmptyString ->
  (mandatory p = true ->
   forallb (spares p) d = true ->
   exists before rendered after,
     length rendered = length (renderers p)
     /\ d = before
            ++ EEnter (builder p) [] :: rendering p rendered
            ++ [EEnter "_update_page"
                  [of_opt (page_id g p); VStr (page_html p rendered)];
                EPrint "[AGENT 01] Skipping page update (no page_id)."]
            ++ after)
  /\ (mandatory p = false ->
      ~ In (EEnter (builder p) (builder_args p)) d).
Proof.
  intros Hrun Hid. apply falsy_of_opt in Hid.
  pose proof (publish_all_run w h) as H. rewrite Hrun in H. cbn [fst snd] in H.
  split.
  - intros Hm Hsp.
    assert (forall f e, In (ERender f (Raised e)) d ->
                        Nat.ltb (page_index p) (updates_before f) = true) as Hlt.
    { intros f e Hin. exact (proj1 (forallb_forall _ _) Hsp _ Hin). }
    clear Hsp Hrun.
    inversion H as [fc fp fb ac bp u1 u2 u3 u4 u5 t6 t7 t8
                      H1 H2 H3 H4 H5 H6 H7 H8
                   |e|fc e|fc fp e
                   |fc fp fb u1 e H1
                   |fc fp fb ac u1 u2 u3 e H1 H2 H3]; subst.
    + destruct p; try discriminate Hm; cbn [page_id] in Hid.
      * rewrite (update_run_falsy _ _ _ Hid H1).
        exists opening, [fc; fp; fb]. eexists. split; [reflexivity|].
        cbn [builder rendering renderers page_html page_id combine map fst snd nth].
        rewrite <- ?app_assoc. reflexivity.
      * rewrite (update_run_falsy _ _ _ Hid H2).
        exists (opening ++ home_built fc fp fb ++ u1), [ac]. eexists.
        split; [reflexivity|].
        cbn [builder rendering renderers page_html page_id combine map fst snd nth].
        rewrite <- ?app_assoc. reflexivity.
      * rewrite (update_run_falsy _ _ _ Hid H3).
        exists (opening ++ home_built fc fp fb ++ u1 ++ categories_built ac ++ u2),
          []. eexists. split; [reflexivity|].
        cbn [builder rendering renderers page_html page_id combine map fst snd nth].
        rewrite <- ?app_assoc. reflexivity.
      * rewrite (update_run_falsy _ _ _ Hid H4).
        exists (opening ++ home_built fc fp fb ++ u1 ++ categories_built ac ++ u2
                ++ products_built ++ u3), [bp]. eexists. split; [reflexivity|].
        cbn [builder rendering renderers page_html page_id combine map fst snd nth].
        rewrite <- ?app_assoc. reflexivity.
      * rewrite (update_run_falsy _ _ _ Hid H5).
        exists (opening ++ home_built fc fp fb ++ u1 ++ categories_built ac ++ u2
                ++ products_built ++ u3 ++ bundles_built bp ++ u4), []. eexists.
        split; [reflexivity|].
        cbn [builder rendering renderers page_html page_id combine map fst snd nth].
        rewrite <- ?app_assoc. reflexivity.
    + assert (Nat.ltb (page_index p) 0 = true) as Hp
        by (apply (Hlt get_featured_categories_html e); last_event).
      discriminate Hp.
    + assert (Nat.ltb (page_index p) 0 = true) as Hp
        by (apply (Hlt get_featured_products_html e); last_event).
      discriminate Hp.
    + assert (Nat.ltb (page_index p) 0 = true) as Hp
        by (apply (Hlt get_featured_bundles_html e); last_event).
      discriminate Hp.
    + assert (Nat.ltb (page_index p) 1 = true) as Hp
        by (apply (Hlt get_all_categories_html e); last_event).
      destruct p; try discriminate Hp. cbn [page_id] in Hid.
      rewrite (update_run_falsy _ _ _ Hid H1).
      exists opening, [fc; fp; fb]. eexists. split; [reflexivity|].
      cbn [builder rendering renderers page_html page_id combine map fst snd nth].
      rewrite <- ?app_assoc. reflexivity.
    + assert (Nat.ltb (page_index p) 3 = true) as Hp
        by (apply (Hlt get_bundles_page_html e); last_event).
      destruct p; try discriminate Hp; cbn [page_id] in Hid.
      * rewrite (update_run_falsy _ _ _ Hid H1).
        exists opening, [fc; fp; fb]. eexists. split; [reflexivity|].
        cbn [builder rendering renderers page_html page_id combine map fst snd nth].
        rewrite <- ?app_assoc. reflexivity.
      * rewrite (update_run_falsy _ _ _ Hid H2).
        exists (opening ++ home_built fc fp fb ++ u1), [ac]. eexists.
        split; [reflexivity|].
        cbn [builder rendering renderers page_html page_id combine map fst snd nth].
        rewrite <- ?app_assoc. reflexivity.
      * rewrite (update_run_falsy _ _ _ Hid H3).
        exists (opening ++ home_built fc fp fb ++ u1 ++ categories_built ac ++ u2),
          []. eexists. split; [reflexivity|].
        cbn [builder rendering renderers page_html page_id combine map fst snd nth].
        rewrite <- ?app_assoc. reflexivity.
  - intros Hm Hin.
    assert (builder p = "_build_static_page_html"%string) as B
      by (destruct p; try discriminate Hm; reflexivity).
    rewrite B in Hin. apply in_entries in Hin.
    destruct (publish_run_static_builds _ _ _ H Hin) as (p' & Hm' & Hargs & T).
    assert (p' = p) as ->
      by (destruct p, p'; try discriminate; reflexivity).
    apply falsy_truthy in Hid. congruence.
Qed.

End Publisher.

(** ** Start-up *)

Section Startup.

Import Py agent1_core firestore_client.

(** The constructor raises when the path it looks for is empty or names
    no file, whatever its argument. *)
Lemma FirestoreClient_raises w h arg :
  let path := service_account_path_used w arg in
  path = EmptyString \/ path_exists w path = false ->
  FirestoreClient arg w h
  = (Raised (RuntimeError ("Service account file not found: " ++ path)%string),
     [EEnter "FirestoreClient.__init__" [of_opt arg]]).
Proof.
  intros path H.
  assert ((if falsy (VStr path) then true else negb (path_exists w path))
          = true) as Hcheck.
  { destruct H as [-> | ->]; [reflexivity|]. now destruct (falsy (VStr path)). }
  revert Hcheck. subst path.
  unfold FirestoreClient, service_account_path_used, getenv_default,
    os_path_exists, or_default.
  cbv beta iota zeta delta [bind enter emit ret raise read].
  destruct arg as [p|]; [destruct (truthy (VStr p))|]; cbn [app];
    match goal with
    | |- (if falsy ?v then _ else _) = _ -> _ => destruct (falsy v)
    end;
    cbn [app]; intros Hcheck; rewrite ?Hcheck; reflexivity.
Qed.

(** At import the constructor is given [SERVICE_ACCOUNT_PATH], which is
    the path it then looks for. *)
Lemma startup_path w :
  service_account_path_used w (Some (SERVICE_ACCOUNT_PATH (read_globals w)))
  = SERVICE_ACCOUNT_PATH (read_globals w).
Proof.
  unfold service_account_path_used, read_globals, or_default.
  cbn [SERVICE_ACCOUNT_PATH].
  destruct (environ w "SERVICE_ACCOUNT_PATH") as [s|] eqn:E; [|reflexivity].
  destruct (truthy (VStr s)) eqn:T; reflexivity.
Qed.

(** The check of line 34. *)
Lemma module_body_check_fails name w h :
  falsy (of_opt (environ w "SYSTEME_API_KEY"))
  || falsy (of_opt (environ w "SYSTEME_WEBSITE_ID")) = true ->
  module_body name w h
  = (Raised (RuntimeError "Systeme.io env vars missing"), []).
Proof.
  intros H. unfold module_body.
  cbv beta iota zeta delta [bind ret raise read].
  cbn [read_globals SYSTEME_API_KEY SYSTEME_WEBSITE_ID].
  now rewrite H.
Qed.

(** C6. When [SYSTEME_API_KEY] or [SYSTEME_WEBSITE_ID] is missing from
    the environment or empty, the module body raises [RuntimeError] at
    line 35, before anything else has happened: no page has been built
    or updated, and the document store has not been touched. *)
Theorem import_without_key_or_site_raises name w h :
  falsy (of_opt (environ w "SYSTEME_API_KEY")) = true
  \/ falsy (of_opt (environ w "SYSTEME_WEBSITE_ID")) = true ->
  module_body name w h
  = (Raised (RuntimeError "Systeme.io env vars missing"), []).
Proof.
  intros H. apply module_body_check_fails.
  destruct H as [-> | ->]; [reflexivity | apply orb_true_r].
Qed.

(** C8. When the path of the service account is empty or names no file,
    [FirestoreClient], as line 37 calls it, raises [RuntimeError]; the
    module body then ends in a [RuntimeError] with nothing on record but,
    at most, the entry into the constructor, so no page has been built
    or updated; and when the key and the site are configured that error
    is the constructor's. *)
Theorem missing_service_account_file_raises_at_startup name w h :
  let path := SERVICE_ACCOUNT_PATH (read_globals w) in
  path = EmptyString \/ path_exists w path = false ->
  FirestoreClient (Some path) w h
  = (Raised (RuntimeError ("Service account file not found: " ++ path)%string),
     [EEnter "FirestoreClient.__init__" [VStr path]])
  /\ exists msg d,
       module_body name w h = (Raised (RuntimeError msg), d)
       /\ (forall ev, In ev d ->
                      ev = EEnter "FirestoreClient.__init__" [VStr path])
       /\ (truthy (of_opt (environ w "SYSTEME_API_KEY")) = true ->
           truthy (of_opt (environ w "SYSTEME_WEBSITE_ID")) = true ->
           msg = ("Service account file not found: " ++ path)%string
           /\ d = [EEnter "FirestoreClient.__init__" [VStr path]]).
Proof.
  intros path H.
  assert (forall h',
            FirestoreClient (Some path) w h'
            = (Raised (RuntimeError
                         ("Service account file not found: " ++ path)%string),
               [EEnter "FirestoreClient.__init__" [VStr path]])) as HF.
  { intros h'. pose proof (FirestoreClient_raises w h' (Some path)) as R.
    cbv zeta in R. unfold path in R. rewrite !startup_path in R.
    apply R. exact H. }
  split; [apply HF|].
  destruct (falsy (of_opt (environ w "SYSTEME_API_KEY"))
            || falsy (of_opt (environ w "SYSTEME_WEBSITE_ID"))) eqn:K.
  - exists "Systeme.io env vars missing"%string, [].
    rewrite (module_body_check_fails name w h K).
    split; [reflexivity|]. split; [intros ev []|].
    intros T1 T2. unfold falsy in K. rewrite T1, T2 in K. discriminate.
  - exists ("Service account file not found: " ++ path)%string,
      [EEnter "FirestoreClient.__init__" [VStr path]].
    split; [|split].
    + unfold module_body.
      cbv beta iota zeta delta [bind ret raise read].
      cbn [read_globals SYSTEME_API_KEY SYSTEME_WEBSITE_ID].
      rewrite K. cbn [app].
      fold (read_globals w). fold path.
      rewrite HF. reflexivity.
    + intros ev [<-|[]]. reflexivity.
    + now intros _ _.
Qed.

End Startup.

(** ** The theorems at work on the sample installation *)

Section OnTheSample.

Import Py agent1_core firestore_client.

Lemma publish_all_attempts_pages_in_order_witness :
  map url (puts (snd (publish_all Sample.globals Sample.world [])))
  = [ "https://api.systeme.io/sites/site-9/pages/home-1";
      "https://api.systeme.io/sites/site-9/pages/search-5";
      "https://api.systeme.io/sites/site-9/pages/terms-7" ]%string
  /\ length (entries "_update_page"
               (snd (publish_all Sample.globals Sample.world []))) = 6.
Proof.
  destruct (publish_all_attempts_pages_in_order Sample.globals Sample.world []
              (fst (publish_all Sample.globals Sample.world []))
              (snd (publish_all Sample.globals Sample.world []))
              eq_refl)
    as (fc & fp & fb & ac & bp & H).
  cbv zeta in H. destruct H as [Hcomplete _].
  destruct (Hcomplete eq_refl) as [He Hp].
  split; [rewrite Hp | rewrite He]; reflexivity.
Defined.

Lemma update_page_sends_one_put_witness :
  puts (snd (_update_page Sample.globals (Some "home-1"%string)
               "<p>hello</p>" Sample.world []))
  = [ {| url := "https://api.systeme.io/sites/site-9/pages/home-1";
         headers := VDict [("Content-Type", VStr "application/json");
                           ("X-API-Key", VStr "secret")]%string;
         data := json_dumps (VDict [("content", VStr "<p>hello</p>")]%string);
         timeout := 60 |} ].
Proof.
  apply (update_page_sends_one_put Sample.globals Sample.world []
           "home-1" "<p>hello</p>" "secret" "site-9");
    [discriminate | reflexivity | reflexivity].
Defined.

Lemma update_page_without_id_skips_witness :
  _update_page Sample.globals None "<p>hello</p>" Sample.world []
  = (Returned tt,
     [EEnter "_update_page" [VNone; VStr "<p>hello</p>"];
      EPrint "[AGENT 01] Skipping page update (no page_id)."])
  /\ puts (snd (_update_page Sample.globals None "<p>hello</p>"
                  Sample.world [])) = [].
Proof.
  apply (update_page_without_id_skips Sample.globals Sample.world [] None
           "<p>hello</p>").
  left; reflexivity.
Defined.

Lemma update_page_response_never_raises_witness :
  fst (_update_page Sample.globals (Some "search-5"%string) "<p>hello</p>"
         Sample.world []) = Returned tt
  /\ exists line,
       snd (_update_page Sample.globals (Some "search-5"%string) "<p>hello</p>"
              Sample.world [])
       = [EEnter "_update_page" [VStr "search-5"; VStr "<p>hello</p>"];
          EEnter "_systeme_headers" [];
          EPut (update_request Sample.globals "search-5" "<p>hello</p>")
               (Returned {| status_code := 404; text := "not found" |});
          EPrint line]
       /\ line = "[AGENT 01] Failed to update page search-5. Status: 404, Body: not found"%string.
Proof.
  destruct (update_page_response_never_raises Sample.globals Sample.world []
              (Some "search-5"%string) "<p>hello</p>"
              (fst (_update_page Sample.globals (Some "search-5"%string)
                      "<p>hello</p>" Sample.world []))
              (snd (_update_page Sample.globals (Some "search-5"%string)
                      "<p>hello</p>" Sample.world []))
              (update_request Sample.globals "search-5" "<p>hello</p>")
              {| status_code := 404; text := "not found" |}
              eq_refl
              (or_intror (or_intror (or_introl eq_refl))))
    as (Hres & line & Hd & _ & Hfailed).
  split; [exact Hres|]. exists line. split; [exact Hd|].
  apply Hfailed. cbn [status_code]. lia.
Defined.

Lemma update_page_catches_request_exception_witness :
  fst (_update_page Sample.globals (Some "home-1"%string) "<p>hello</p>"
         Sample.world []) = Returned tt
  /\ snd (_update_page Sample.globals (Some "home-1"%string) "<p>hello</p>"
            Sample.world [])
     = [EEnter "_update_page" [VStr "home-1"; VStr "<p>hello</p>"];
        EEnter "_systeme_headers" [];
        EPut (update_request Sample.globals "home-1" "<p>hello</p>")
             (Raised Sample.connection_error);
        EPrint "[AGENT 01] ERROR updating page home-1: connection refused"].
Proof.
  exact (update_page_catches_request_exception Sample.globals Sample.world []
           (Some "home-1"%string) "<p>hello</p>" _ _
           (update_request Sample.globals "home-1" "<p>hello</p>")
           Sample.connection_error
           eq_refl
           (or_intror (or_intror (or_introl eq_refl)))).
Defined.

Lemma import_without_key_or_site_raises_witness :
  module_body "__main__" Sample.world_without_site []
  = (Raised (RuntimeError "Systeme.io env vars missing"), []).
Proof.
  apply (import_without_key_or_site_raises "__main__"
           Sample.world_without_site []).
  right; reflexivity.
Defined.

Lemma publish_all_reports_completion_witness :
  fst (publish_all Sample.globals Sample.world []) = Returned tt
  /\ exists before,
       snd (publish_all Sample.globals Sample.world [])
       = before ++ [EPrint ">> [AGENT 01] Publish cycle complete."].
Proof.
  exact (publish_all_reports_completion Sample.globals Sample.world [] _ _
           eq_refl eq_refl).
Defined.

Lemma missing_service_account_file_raises_at_startup_witness :
  module_body "__main__" Sample.world_without_file []
  = (Raised (RuntimeError
               "Service account file not found: /home/HUSINPY/Husin_Network/Keys/service_account.json"),
     [EEnter "FirestoreClient.__init__"
        [VStr "/home/HUSINPY/Husin_Network/Keys/service_account.json"]]).
Proof.
  destruct (missing_service_account_file_raises_at_startup "__main__"
              Sample.world_without_file [] (or_intror eq_refl))
    as (_ & msg & d & Hm & _ & Hk).
  destruct (Hk eq_refl eq_refl) as [-> ->]. exact Hm.
Defined.

Lemma publish_all_renderer_exception_propagates_witness :
  fst (publish_all Sample.globals Sample.world_renderer_fails [])
  = Raised {| exc_type := "ValueError"; exc_str := "no categories" |}
  /\ (exists before,
        snd (publish_all Sample.globals Sample.world_renderer_fails [])
        = before
          ++ [ERender get_all_categories_html
                (Raised {| exc_type := "ValueError";
                           exc_str := "no categories" |})])
  /\ ~ In (EPrint ">> [AGENT 01] Publish cycle complete.")
          (snd (publish_all Sample.globals Sample.world_renderer_fails []))
  /\ length (entries "_update_page"
               (snd (publish_all Sample.globals Sample.world_renderer_fails [])))
     = 1.
Proof.
  apply (publish_all_renderer_exception_propagates Sample.globals
           Sample.world_renderer_fails [] _ _ get_all_categories_html
           {| exc_type := "ValueError"; exc_str := "no categories" |} eq_refl).
  vm_compute. do 11 right. left. reflexivity.
Defined.

Lemma publish_all_builds_mandatory_page_without_id_witness :
  (exists before rendered after,
     length rendered = 3
     /\ snd (publish_all (read_globals Cases.world_bundles_fail)
               Cases.world_bundles_fail [])
        = before
          ++ EEnter "_build_home_page_html" []
             :: rendering Home rendered
          ++ [EEnter "_update_page"
                [VNone; VStr (page_html Home rendered)];
              EPrint "[AGENT 01] Skipping page update (no page_id)."]
          ++ after)
  /\ ~ In (EEnter "_build_static_page_html"
             [VStr "Contact"; VStr contact_body])
          (snd (publish_all Sample.globals Sample.world [])).
Proof.
  split.
  - exact (proj1 (publish_all_builds_mandatory_page_without_id
                    (read_globals Cases.world_bundles_fail)
                    Cases.world_bundles_fail [] _ _ Home eq_refl
                    (or_introl eq_refl))
             eq_refl eq_refl).
  - exact (proj2 (publish_all_builds_mandatory_page_without_id Sample.globals
                    Sample.world [] _ _ Contact eq_refl
                    (or_introl eq_refl))
             eq_refl).
Defined.

(** *** Where the claims, as first stated, fail

    In the sample installation whose renderer fails on the categories
    listing, the run stops while the categories page is built. *)

(** C1 as first stated fails: the search page is mandatory and
    configured, yet only one update is attempted and no request is put
    for the search page. *)
Lemma publish_all_attempts_pages_in_order_counterexample :
  SYSTEME_SEARCH_PAGE_ID Sample.globals = Some "search-5"%string
  /\ length (entries "_update_page"
               (snd (publish_all Sample.globals Sample.world_renderer_fails [])))
     = 1
  /\ ~ In "https://api.systeme.io/sites/site-9/pages/search-5"%string
          (map url (puts (snd (publish_all Sample.globals
                                 Sample.world_renderer_fails [])))).
Proof.
  split; [reflexivity|]. split; [reflexivity|].
  vm_compute. intros [H|[]]. discriminate H.
Qed.

(** C7 as first stated fails: [publish_all] does not return, and the
    completion line is not printed. *)
Lemma publish_all_reports_completion_counterexample :
  fst (publish_all Sample.globals Sample.world_renderer_fails [])
  <> Returned tt
  /\ ~ In (EPrint ">> [AGENT 01] Publish cycle complete.")
          (snd (publish_all Sample.globals Sample.world_renderer_fails [])).
Proof.
  split.
  - vm_compute. discriminate.
  - vm_compute. intros H.
    repeat (destruct H as [H|H]; [discriminate H|]). exact H.
Qed.

(** C10 as first stated fails: the products page is mandatory and has
    no identifier, yet its builder is never entered and [_update_page]
    is never entered for it. *)
Lemma publish_all_builds_mandatory_page_without_id_counterexample :
  mandatory Products = true
  /\ page_id Sample.globals Products = None
  /\ ~ In (EEnter "_build_products_page_html" [])
          (snd (publish_all Sample.globals Sample.world_renderer_fails []))
  /\ ~ In [VNone; VStr products_page]
          (entries "_update_page"
             (snd (publish_all Sample.globals Sample.world_renderer_fails []))).
Proof.
  split; [reflexivity|]. split; [reflexivity|]. split.
  - vm_compute. intros H.
    repeat (destruct H as [H|H]; [discriminate H|]). exact H.
  - vm_compute. intros H.
    repeat (destruct H as [H|H]; [discriminate H|]). exact H.
Qed.

End OnTheSample.

(** ** More on the page updater *)

Section UpdaterMore.

Import Py agent1_core.

Variable g : Globals.

Lemma prints_app d1 d2 : prints (d1 ++ d2) = prints d1 ++ prints d2.
Proof.
  induction d1 as [|ev d1 IH]; [reflexivity|].
  destruct ev; simpl; auto. now rewrite IH.
Qed.

(** X2. What [_update_page] sends depends on the globals, the page
    identifier and the HTML string only: in any two worlds, after any two
    histories, the requests put are the same. *)
Theorem update_page_request_ignores_world page_id html w h w' h' :
  puts (snd (_update_page g page_id html w h))
  = puts (snd (_update_page g page_id html w' h')).
Proof.
  destruct (falsy (of_opt page_id)) eqn:F.
  - now rewrite !(update_page_skip g page_id html _ _ F).
  - assert (exists id, page_id = Some id /\ id <> EmptyString) as (id & -> & Hid).
    { destruct page_id as [id|]; [|discriminate].
      exists id; split; [reflexivity|]. apply truthy_str.
      unfold falsy in F. change (of_opt (Some id)) with (VStr id) in F.
      now destruct (truthy (VStr id)). }
    now rewrite !(update_page_sent g id html _ _ Hid).
Qed.

End UpdaterMore.

(** ** The body of a request *)

Section Body.

Import Py agent1_core.

Lemma printable_ascii_app s t :
  printable_ascii (s ++ t)%string = printable_ascii s && printable_ascii t.
Proof.
  unfold printable_ascii. induction s as [|c s IH]; [reflexivity|].
  cbn [String.append list_ascii_of_string forallb]. now rewrite IH, andb_assoc.
Qed.

Lemma hex_digit_printable m : (m < 16)%N -> printable (hex_digit m) = true.
Proof.
  intros H. destruct m as [|p]; [reflexivity|].
  do 5 (try destruct p as [p|p|]); try reflexivity; lia.
Qed.

Lemma nibble_bound n : (N.land n 15 < 16)%N.
Proof.
  change 15%N with (N.ones 4). rewrite N.land_ones.
  apply N.mod_upper_bound. discriminate.
Qed.

Lemma u_escape_printable n : printable_ascii (u_escape n) = true.
Proof.
  unfold u_escape, printable_ascii.
  cbn [list_ascii_of_string forallb].
  rewrite !hex_digit_printable by apply nibble_bound. reflexivity.
Qed.

Lemma escape_code_point_printable n :
  printable_ascii (escape_code_point n) = true.
Proof.
  unfold escape_code_point.
  repeat match goal with
         | |- context [if (n =? ?k)%N then _ else _] =>
             destruct (n =? k)%N; [reflexivity|]
         end.
  destruct ((32 <=? n) && (n <=? 126))%N eqn:R.
  - apply andb_true_iff in R as [R1 R2].
    apply N.leb_le in R1. apply N.leb_le in R2.
    unfold printable_ascii, printable. cbn [list_ascii_of_string forallb].
    rewrite N_ascii_embedding by lia.
    apply N.leb_le in R1. apply N.leb_le in R2. now rewrite R1, R2.
  - destruct (n <? 65536)%N; [apply u_escape_printable|].
    cbv zeta. now rewrite printable_ascii_app, !u_escape_printable.
Qed.

Lemma concat_printable l :
  Forall (fun s => printable_ascii s = true) l ->
  printable_ascii (String.concat EmptyString l) = true.
Proof.
  induction 1 as [|s l Hs Hl IH]; [reflexivity|].
  destruct l as [|t l]; [exact Hs|].
  change (String.concat EmptyString (s :: t :: l))
    with (s ++ EmptyString ++ String.concat EmptyString (t :: l))%string.
  now rewrite !printable_ascii_app, Hs, IH.
Qed.

Lemma encode_basestring_ascii_printable s :
  printable_ascii (encode_basestring_ascii s) = true.
Proof.
  unfold encode_basestring_ascii.
  rewrite !printable_ascii_app, concat_printable; [reflexivity|].
  apply Forall_forall. intros e He. apply in_map_iff in He as (n & <- & _).
  apply escape_code_point_printable.
Qed.

(** X3. Whatever the HTML string, the body of the request
    [_update_page] puts is printable ASCII: [json.dumps] leaves no
    control character, no line break and no byte above 126 in it. *)
Theorem update_page_body_is_printable_ascii g page_id html w h r :
  In r (puts (snd (_update_page g page_id html w h))) ->
  printable_ascii (data r) = true.
Proof.
  intros Hin.
  destruct (update_page_run g page_id html w h) as (d & Hd & Hrun).
  rewrite Hd in Hin. cbn [snd] in Hin.
  destruct Hrun as [F|id o -> Hid]; cbn [puts In] in Hin; [destruct Hin|].
  destruct Hin as [<-|[]].
  cbn [data update_request json_dumps map fst snd String.concat].
  now rewrite !printable_ascii_app, !encode_basestring_ascii_printable.
Qed.

End Body.

(** ** More on the publisher *)

Section PublisherMore.

Import Py agent1_core.

Variable g : Globals.

(** A request [_update_page] sends for one of the eight pages. *)
Lemma update_run_sent_for p html u r :
  update_run g (page_id g p) html u -> In r (puts u) ->
  exists id, page_id g p = Some id /\ id <> EmptyString
             /\ r = update_request g id html.
Proof.
  intros H Hin. inversion H as [F Hu|id o Hp Hid Hu]; subst u; cbn in Hin.
  - destruct Hin.
  - destruct Hin as [<-|[]]. now exists id.
Qed.

Lemma static_run_sent_for p title body t r :
  static_run g (page_id g p) title body t -> In r (puts t) ->
  exists id, page_id g p = Some id /\ id <> EmptyString
             /\ r = update_request g id (static_template title body).
Proof.
  intros H Hin. inversion H as [F Ht|u F Hu Ht]; subst t; cbn in Hin.
  - destruct Hin.
  - now apply (update_run_sent_for p _ u r Hu).
Qed.

Lemma publish_run_sent_for res d r :
  publish_run g res d -> In r (puts d) ->
  exists p id html, page_id g p = Some id /\ id <> EmptyString
                    /\ r = update_request g id html.
Proof.
  intros H Hin.
  assert (forall p html u,
             update_run g (page_id g p) html u -> In r (puts u) ->
             exists p id html, page_id g p = Some id /\ id <> EmptyString
                               /\ r = update_request g id html) as U.
  { intros p html u Hu Hi.
    destruct (update_run_sent_for p html u r Hu Hi) as (id & ? & ? & ?).
    now exists p, id, html. }
  assert (forall p title body t,
             static_run g (page_id g p) title body t -> In r (puts t) ->
             exists p id html, page_id g p = Some id /\ id <> EmptyString
                               /\ r = update_request g id html) as S.
  { intros p title body t Ht Hi.
    destruct (static_run_sent_for p title body t r Ht Hi) as (id & ? & ? & ?).
    now exists p, id, (static_template title body). }
  destruct H; rewrite ?puts_app in Hin; rewrite ?in_app_iff in Hin;
    cbn [opening home_built categories_built products_built bundles_built
           search_built puts In] in Hin;
    repeat match goal with
           | H : _ \/ _ |- _ => destruct H
           | H : False |- _ => destruct H
           end;
    first [ eapply (U Home); eassumption
          | eapply (U Categories); eassumption
          | eapply (U Products); eassumption
          | eapply (U Bundles); eassumption
          | eapply (U Search); eassumption
          | eapply (S Contact); eassumption
          | eapply (S Terms); eassumption
          | eapply (S Privacy); eassumption ].
Qed.

(** X4. Every request [publish_all] puts, in any run, goes to the URL of
    one of the eight pages, whose identifier is configured, with the two
    headers of [_systeme_headers], the JSON encoding of a one-key object
    as body, and a timeout of 60 seconds. *)
Theorem publish_all_puts_only_to_configured_pages w h r :
  In r (puts (snd (publish_all g w h))) ->
  exists p html,
    truthy (of_opt (page_id g p)) = true
    /\ url r = page_url g (page_id g p)
    /\ headers r = VDict [("Content-Type", VStr "application/json");
                          ("X-API-Key", of_opt (SYSTEME_API_KEY g))]
    /\ data r = json_dumps (VDict [("content", VStr html)])
    /\ timeout r = 60%Z.
Proof.
  intros Hin.
  destruct (publish_run_sent_for _ _ r (publish_all_run g w h) Hin)
    as (p & id & html & Hp & Hid & ->).
  exists p, html. rewrite Hp. repeat split.
  now apply truthy_str.
Qed.

Lemma configured_urls_split :
  let U id := map (page_url g) (filter (fun id => truthy (of_opt id)) [id]) in
  map (page_url g) (configured_ids g)
  = U (SYSTEME_HOME_PAGE_ID g) ++ U (SYSTEME_CATEGORIES_PAGE_ID g)
    ++ U (SYSTEME_PRODUCTS_PAGE_ID g) ++ U (SYSTEME_BUNDLES_PAGE_ID g)
    ++ U (SYSTEME_SEARCH_PAGE_ID g) ++ U (SYSTEME_CONTACT_PAGE_ID g)
    ++ U (SYSTEME_TERMS_PAGE_ID g) ++ U (SYSTEME_PRIVACY_PAGE_ID g).
Proof.
  intros U. unfold U. rewrite <- !map_app, <- !filter_app. reflexivity.
Qed.

Ltac puts_of_runs :=
  rewrite ?puts_app, ?map_app;
  repeat match goal with
         | H : update_run g _ _ _ |- _ =>
             rewrite (update_run_puts g _ _ _ H); clear H
         | H : static_run g _ _ _ _ |- _ =>
             rewrite (static_run_puts g _ _ _ _ H); clear H
         end;
  cbn [opening home_built categories_built products_built bundles_built
         search_built puts];
  change (map url []) with (@nil str); cbn [app].

(** X6. In any run of [publish_all], also one that a renderer cuts
    short, the URLs put are the first ones of the list of the configured
    pages, in the order of the pages: no page is put twice, none out of
    turn, and none that is not configured. *)
Theorem publish_all_puts_follow_the_configured_pages w h :
  exists rest,
    map url (puts (snd (publish_all g w h))) ++ rest
    = map (page_url g) (configured_ids g).
Proof.
  pose proof (publish_all_run g w h) as H.
  rewrite configured_urls_split. cbv zeta.
  destruct H.
  - exists []. puts_of_runs. now rewrite !app_nil_r.
  - eexists. puts_of_runs. reflexivity.
  - eexists. puts_of_runs. reflexivity.
  - eexists. puts_of_runs. reflexivity.
  - eexists. puts_of_runs. rewrite <- ?app_assoc. reflexivity.
  - eexists. puts_of_runs. rewrite <- ?app_assoc. reflexivity.
Qed.

End PublisherMore.

(** ** The page builders *)

Section Builders.

Import Py agent1_core.

Ltac builder_step w :=
  match goal with
  | |- context [render w ?f ?hh] =>
      let s := fresh "s" in let e := fresh "e" in
      destruct (render w f hh) as [s|e]
  end.

(** X7. Each of the five builders of the mandatory pages enters, calls
    its functions of [shop_renderer] in the order of the source, and
    stops at the first call that raises, with that exception and without
    the calls after it; when every call returns, so does the builder,
    with the page made of what the calls returned.  The builders of the
    products and search pages call nothing and always return. *)
Theorem builders_call_renderers_in_order :
  builder_spec Home _build_home_page_html
  /\ builder_spec Categories _build_categories_page_html
  /\ builder_spec Products _build_products_page_html
  /\ builder_spec Bundles _build_bundles_page_html
  /\ builder_spec Search _build_search_page_html.
Proof.
  repeat split; intros w h;
    unfold _build_home_page_html, _build_categories_page_html,
      _build_products_page_html, _build_bundles_page_html,
      _build_search_page_html;
    cbv beta iota zeta delta [bind ret emit enter ask call_renderer].
  - builder_step w; [builder_step w; [builder_step w|]|].
    + left. exists [s; s0; s1]. now split.
    + right. exists [s; s0], get_featured_bundles_html, e. now split.
    + right. exists [s], get_featured_products_html, e. now split.
    + right. exists [], get_featured_categories_html, e. now split.
  - builder_step w.
    + left. exists [s]. now split.
    + right. exists [], get_all_categories_html, e. now split.
  - left. exists []. now split.
  - builder_step w.
    + left. exists [s]. now split.
    + right. exists [], get_bundles_page_html, e. now split.
  - left. exists []. now split.
Qed.

End Builders.

(** ** More on start-up *)

Section StartupMore.

Import Py agent1_core firestore_client.

(** The constructor once the file is found. *)
Lemma FirestoreClient_found w h arg :
  let path := service_account_path_used w arg in
  path <> EmptyString -> path_exists w path = true ->
  FirestoreClient arg w h
  = let enter_ := EEnter "FirestoreClient.__init__" [of_opt arg] in
    if firebase_apps w then
      (firestore_client w,
       [enter_;
        ELogInfo "Firebase app already initialized; reusing existing app.";
        EFirestoreClient (firestore_client w)])
    else
      match certificate w path with
      | Raised e => (Raised e, [enter_; ECertificate path (Raised e)])
      | Returned c =>
          match initialize_app w with
          | Raised e =>
              (Raised e, [enter_; ECertificate path (Returned c);
                          EInitializeApp (Raised e)])
          | Returned a =>
              (firestore_client w,
               [enter_; ECertificate path (Returned c);
                EInitializeApp (Returned a);
                ELogInfo "Initialized Firebase app with provided service account.";
                EFirestoreClient (firestore_client w)])
          end
      end.
Proof.
  intros path Hne Hex.
  assert ((if falsy (VStr path) then true else negb (path_exists w path))
          = false) as Hcheck.
  { apply truthy_str in Hne. unfold falsy. now rewrite Hne, Hex. }
  revert Hcheck Hex. subst path.
  unfold FirestoreClient, service_account_path_used, getenv_default,
    os_path_exists, or_default.
  cbv beta iota zeta delta [bind enter emit ret raise read ask].
  destruct arg as [p|]; [destruct (truthy (VStr p))|]; cbn [app];
    match goal with
    | |- (if falsy ?v then _ else _) = _ -> _ => destruct (falsy v)
    end;
    cbn [app]; intros Hcheck Hex; try discriminate Hcheck;
    rewrite ?Hex; cbn [negb];
    destruct (firebase_apps w); cbn [negb app];
    try (destruct (certificate w _) as [[]|?]; cbn [app];
         [destruct (initialize_app w) as [[]|?]; cbn [app]|]);
    destruct (firestore_client w) as [[]|?]; reflexivity.
Qed.

(** X8. With its file in place and the Firebase app already
    initialised, [FirestoreClient] builds no certificate and initialises
    nothing: it logs that it reuses the app and asks for the client,
    whose outcome is its own. *)
Theorem FirestoreClient_initializes_only_once w h arg :
  let path := service_account_path_used w arg in
  path <> EmptyString -> path_exists w path = true ->
  firebase_apps w = true ->
  FirestoreClient arg w h
  = (firestore_client w,
     [EEnter "FirestoreClient.__init__" [of_opt arg];
      ELogInfo "Firebase app already initialized; reusing existing app.";
      EFirestoreClient (firestore_client w)]).
Proof.
  intros path Hne Hex Happs.
  rewrite (FirestoreClient_found w h arg Hne Hex). cbv zeta. now rewrite Happs.
Qed.

(** X9. With its file in place and no Firebase app yet,
    [FirestoreClient] builds the certificate from the path, then
    initialises the app, logs it, and asks for the client.  An exception
    of the certificate comes out at once, with no app initialised and no
    client asked for; so does one of the initialisation. *)
Theorem FirestoreClient_first_initialization w h arg :
  let path := service_account_path_used w arg in
  let enter_ := EEnter "FirestoreClient.__init__" [of_opt arg] in
  path <> EmptyString -> path_exists w path = true ->
  firebase_apps w = false ->
  (forall e, certificate w path = Raised e ->
     FirestoreClient arg w h
     = (Raised e, [enter_; ECertificate path (Raised e)]))
  /\ (forall e, certificate w path = Returned tt ->
        initialize_app w = Raised e ->
        FirestoreClient arg w h
        = (Raised e, [enter_; ECertificate path (Returned tt);
                      EInitializeApp (Raised e)]))
  /\ (certificate w path = Returned tt ->
      initialize_app w = Returned tt ->
      FirestoreClient arg w h
      = (firestore_client w,
         [enter_; ECertificate path (Returned tt);
          EInitializeApp (Returned tt);
          ELogInfo "Initialized Firebase app with provided service account.";
          EFirestoreClient (firestore_client w)])).
Proof.
  intros path enter_ Hne Hex Happs.
  rewrite (FirestoreClient_found w h arg Hne Hex). cbv zeta. rewrite Happs.
  fold path. repeat split.
  - now intros e ->.
  - now intros e -> ->.
  - now intros -> ->.
Qed.

(** X10. A non-empty path given to [FirestoreClient] is the one it
    uses: the environment is not consulted, so the same call in a world
    with any other environment does the same. *)
Theorem FirestoreClient_argument_overrides_environment w h p env :
  p <> EmptyString ->
  FirestoreClient (Some p) (with_environ env w) h
  = FirestoreClient (Some p) w h.
Proof.
  intros Hp. apply truthy_str in Hp.
  destruct w as [env0 exists_ apps cert init client rnd put el].
  unfold FirestoreClient, os_path_exists, falsy, with_environ.
  cbv beta iota zeta delta
    [bind enter emit ret raise read ask path_exists firebase_apps certificate
       initialize_app firestore_client].
  rewrite !Hp. cbv beta iota zeta delta [negb].
  destruct (exists_ p); [|reflexivity].
  destruct apps; reflexivity.
Qed.

(** X11. Without an argument, or with an empty one, [FirestoreClient]
    does what it does when given the value of [SERVICE_ACCOUNT_PATH], or
    the default path when the variable is not set: the same outcome and,
    after the entry that records the argument, the same events. *)
Theorem FirestoreClient_falls_back_on_environment w h arg :
  arg = None \/ arg = Some EmptyString ->
  let p := or_default (environ w "SERVICE_ACCOUNT_PATH")
             default_service_account_path in
  fst (FirestoreClient arg w h) = fst (FirestoreClient (Some p) w h)
  /\ tl (snd (FirestoreClient arg w h))
     = tl (snd (FirestoreClient (Some p) w h)).
Proof.
  intros Harg p.
  assert (forall a,
             FirestoreClient a w h
             = let path := service_account_path_used w a in
               let (r, d) := FirestoreClient (Some path) w h in
               (r, EEnter "FirestoreClient.__init__" [of_opt a] :: tl d)) as E.
  { intros a.
    unfold FirestoreClient, service_account_path_used, getenv_default,
      os_path_exists, or_default.
    cbv beta iota zeta delta [bind enter emit ret raise read ask].
    destruct a as [q|]; [destruct (truthy (VStr q)) eqn:T; [rewrite T|]|];
      cbn [app];
      repeat match goal with
             | |- context [truthy (VStr ?v)] => destruct (truthy (VStr v))
             | |- context [if falsy ?v then _ else _] => destruct (falsy v)
             | |- context [path_exists w ?v] => destruct (path_exists w v)
             | |- context [firebase_apps w] => destruct (firebase_apps w)
             | |- context [certificate w ?v] => destruct (certificate w v)
             | |- context [initialize_app w] => destruct (initialize_app w)
             | |- context [firestore_client w] => destruct (firestore_client w)
             | _ => progress cbn [app negb]
             end;
      reflexivity. }
  rewrite (E arg), (E (Some p)).
  assert (service_account_path_used w arg = p) as ->
    by (destruct Harg as [-> | ->]; reflexivity).
  assert (service_account_path_used w (Some p) = p) as ->.
  { unfold service_account_path_used.
    destruct (truthy (VStr p)) eqn:T; [reflexivity|].
    unfold p, or_default in *.
    destruct (environ w "SERVICE_ACCOUNT_PATH"); [reflexivity | discriminate T]. }
  cbv zeta. destruct (FirestoreClient (Some p) w h) as [r d]. now split.
Qed.

Ltac client_cases :=
  repeat match goal with
         | |- context [truthy (VStr ?v)] => destruct (truthy (VStr v))
         | |- context [if ?b then _ else _] => destruct b
         | |- context [match ?o with Returned _ => _ | Raised _ => _ end] =>
             destruct o
         | _ => progress cbn [app negb fst snd]
         end.

(** The oracles of the constructor do not see the history. *)
Lemma FirestoreClient_ignores_history arg w h h' :
  FirestoreClient arg w h = FirestoreClient arg w h'.
Proof.
  destruct w as [env0 exists_ apps cert init client rnd put el].
  unfold FirestoreClient, getenv_default, os_path_exists, falsy.
  cbv beta iota zeta delta
    [bind enter emit ret raise read ask path_exists firebase_apps certificate
       initialize_app firestore_client environ].
  destruct arg as [p|]; client_cases; reflexivity.
Qed.

Lemma FirestoreClient_client_events arg w h :
  forallb client_event (snd (FirestoreClient arg w h)) = true.
Proof.
  destruct w as [env0 exists_ apps cert init client rnd put el].
  unfold FirestoreClient, getenv_default, os_path_exists, falsy.
  cbv beta iota zeta delta
    [bind enter emit ret raise read ask path_exists firebase_apps certificate
       initialize_app firestore_client environ].
  destruct arg as [p|]; client_cases; reflexivity.
Qed.

(** The module body once the check of line 34 has passed. *)
Lemma module_body_run name w h :
  truthy (of_opt (environ w "SYSTEME_API_KEY")) = true ->
  truthy (of_opt (environ w "SYSTEME_WEBSITE_ID")) = true ->
  module_body name w h
  = let g := read_globals w in
    match FirestoreClient (Some (SERVICE_ACCOUNT_PATH g)) w h with
    | (Raised e, dF) => (Raised e, dF)
    | (Returned _, dF) =>
        if String.eqb name "__main__" then
          match publish_all g w (h ++ dF ++ [EPrint started_line]) with
          | (Returned _, dP) =>
              (Returned tt,
               dF ++ EPrint started_line :: dP
               ++ [EPrint (finished_line (elapsed_2f w))])
          | (Raised e, dP) => (Raised e, dF ++ EPrint started_line :: dP)
          end
        else (Returned tt, dF)
    end.
Proof.
  intros K S. unfold module_body.
  cbv beta iota zeta delta [bind ret raise read print emit].
  cbn [read_globals SYSTEME_API_KEY SYSTEME_WEBSITE_ID].
  unfold falsy. rewrite K, S. cbn [negb orb app].
  fold (read_globals w). rewrite !app_nil_r.
  destruct (FirestoreClient _ w h) as [[[]|e] dF]; [|reflexivity].
  destruct (String.eqb name "__main__"); [|now rewrite app_nil_r].
  rewrite <- !app_assoc.
  destruct (publish_all (read_globals w) w _) as [[[]|e] dP]; cbn [app].
  - reflexivity.
  - reflexivity.
Qed.

Lemma client_events_print_nothing d :
  forallb client_event d = true -> prints d = [].
Proof.
  induction d as [|ev d IH]; [reflexivity|].
  cbn [forallb]. intros H. apply andb_true_iff in H as [Hev Hd].
  destruct ev; try discriminate Hev; cbn [prints]; auto.
Qed.

(** X12. When the check of line 34 has passed and [FirestoreClient]
    raises, for a file that is no service account as for a missing one,
    the module body raises the same exception with the events of the
    constructor and no other: nothing was printed, rendered or put. *)
Theorem startup_stops_when_the_client_fails name w h e dF :
  truthy (of_opt (environ w "SYSTEME_API_KEY")) = true ->
  truthy (of_opt (environ w "SYSTEME_WEBSITE_ID")) = true ->
  FirestoreClient (Some (SERVICE_ACCOUNT_PATH (read_globals w))) w h
  = (Raised e, dF) ->
  module_body name w h = (Raised e, dF)
  /\ forallb client_event dF = true.
Proof.
  intros K S HF. split.
  - rewrite (module_body_run name w h K S). cbv zeta. now rewrite HF.
  - pose proof (FirestoreClient_client_events
                  (Some (SERVICE_ACCOUNT_PATH (read_globals w))) w h) as C.
    now rewrite HF in C.
Qed.

(** X13. Imported under any name but [__main__], the module publishes
    nothing: its events are events of the constructor only, and when the
    check of line 34 passes the module body does exactly what the
    constructor does. *)
Theorem import_does_not_publish name w h :
  name <> "__main__"%string ->
  forallb client_event (snd (module_body name w h)) = true
  /\ (truthy (of_opt (environ w "SYSTEME_API_KEY")) = true ->
      truthy (of_opt (environ w "SYSTEME_WEBSITE_ID")) = true ->
      module_body name w h
      = FirestoreClient (Some (SERVICE_ACCOUNT_PATH (read_globals w))) w h).
Proof.
  intros Hname. apply String.eqb_neq in Hname.
  assert (truthy (of_opt (environ w "SYSTEME_API_KEY")) = true ->
          truthy (of_opt (environ w "SYSTEME_WEBSITE_ID")) = true ->
          module_body name w h
          = FirestoreClient (Some (SERVICE_ACCOUNT_PATH (read_globals w))) w h)
    as E.
  { intros K S. rewrite (module_body_run name w h K S). cbv zeta.
    rewrite Hname.
    now destruct (FirestoreClient _ w h) as [[[]|e] dF]. }
  split; [|exact E].
  destruct (truthy (of_opt (environ w "SYSTEME_API_KEY"))) eqn:K;
    [destruct (truthy (of_opt (environ w "SYSTEME_WEBSITE_ID"))) eqn:S|].
  - rewrite (E eq_refl eq_refl). apply FirestoreClient_client_events.
  - rewrite module_body_check_fails; [reflexivity|].
    unfold falsy. rewrite S. apply orb_true_r.
  - rewrite module_body_check_fails; [reflexivity|].
    unfold falsy. now rewrite K.
Qed.

(** X14. Run as the script, once the check of line 34 has passed and
    the constructor has returned, the module prints the line that it
    started and runs one publish cycle; it prints the line that it
    finished, and returns, exactly when the cycle returned, and lets an
    exception of the cycle out otherwise. *)
Theorem script_runs_one_publish_cycle w h dF :
  truthy (of_opt (environ w "SYSTEME_API_KEY")) = true ->
  truthy (of_opt (environ w "SYSTEME_WEBSITE_ID")) = true ->
  FirestoreClient (Some (SERVICE_ACCOUNT_PATH (read_globals w))) w h
  = (Returned tt, dF) ->
  module_body "__main__" w h
  = match publish_all (read_globals w) w (h ++ dF ++ [EPrint started_line]) with
    | (Returned _, dP) =>
        (Returned tt,
         dF ++ EPrint started_line :: dP
         ++ [EPrint (finished_line (elapsed_2f w))])
    | (Raised e, dP) => (Raised e, dF ++ EPrint started_line :: dP)
    end.
Proof.
  intros K S HF. rewrite (module_body_run "__main__" w h K S). cbv zeta.
  now rewrite HF.
Qed.

Ltac lines_differ H :=
  apply String.eqb_eq in H; cbv in H; discriminate H.

Lemma update_run_not_finished g page_id html u el :
  update_run g page_id html u -> ~ In (finished_line el) (prints u).
Proof.
  intros H Hin. inversion H as [F Hu|id o Hp Hid Hu]; subst u;
    cbn [prints In] in Hin; destruct Hin as [Hl|[]].
  - lines_differ Hl.
  - destruct o as [resp|e]; cbn [report_line] in Hl;
      [destruct ((200 <=? status_code resp)%Z && (status_code resp <? 300)%Z)|];
      lines_differ Hl.
Qed.

Lemma static_run_not_finished g page_id title body t el :
  static_run g page_id title body t -> ~ In (finished_line el) (prints t).
Proof.
  intros H Hin. inversion H as [F Ht|u F Hu Ht]; subst t; cbn [prints In] in Hin.
  - destruct Hin.
  - now apply (update_run_not_finished _ _ _ _ el Hu).
Qed.

Lemma publish_run_not_finished g res d el :
  publish_run g res d -> ~ In (finished_line el) (prints d).
Proof.
  intros H Hin.
  destruct H; rewrite ?prints_app in Hin; rewrite ?in_app_iff in Hin;
    cbn [opening home_built categories_built products_built bundles_built
           search_built prints In] in Hin;
    repeat match goal with
           | H : _ \/ _ |- _ => destruct H
           | H : False |- _ => destruct H
           | H : update_run _ _ _ ?u, Hin : In _ (prints ?u) |- _ =>
               exact (update_run_not_finished _ _ _ _ _ H Hin)
           | H : static_run _ _ _ _ ?t, Hin : In _ (prints ?t) |- _ =>
               exact (static_run_not_finished _ _ _ _ _ _ H Hin)
           | H : _ = finished_line _ |- _ => lines_differ H
           end.
Qed.

(** X15. Run as the script: when the module returns normally, the last
    thing it did was to call [print] with the line that it finished; and
    [print] is called with that text only once the constructor and the
    publish cycle have both returned, as the last call of the run.  In a
    run that ends in a start-up error or in an exception of the publish
    cycle, [print] is never called with that text: the body of a response
    is printed only inside the line that reports a failed update. *)
Theorem script_prints_finished_only_after_the_cycle w h res d :
  module_body "__main__" w h = (res, d) ->
  (res = Returned tt ->
   exists before, d = before ++ [EPrint (finished_line (elapsed_2f w))])
  /\ (In (finished_line (elapsed_2f w)) (prints d) ->
      exists dF dP,
        FirestoreClient (Some (SERVICE_ACCOUNT_PATH (read_globals w))) w h
        = (Returned tt, dF)
        /\ publish_all (read_globals w) w (h ++ dF ++ [EPrint started_line])
           = (Returned tt, dP)
        /\ d = dF ++ EPrint started_line :: dP
               ++ [EPrint (finished_line (elapsed_2f w))]).
Proof.
  intros Hrun.
  destruct (falsy (of_opt (environ w "SYSTEME_API_KEY"))
            || falsy (of_opt (environ w "SYSTEME_WEBSITE_ID"))) eqn:K.
  - rewrite (module_body_check_fails _ w h K) in Hrun.
    injection Hrun as <- <-. split; [discriminate | intros []].
  - apply orb_false_iff in K as [K S]. unfold falsy in K, S.
    apply negb_false_iff in K. apply negb_false_iff in S.
    rewrite (module_body_run _ w h K S) in Hrun. cbv zeta in Hrun.
    pose proof (FirestoreClient_client_events
                  (Some (SERVICE_ACCOUNT_PATH (read_globals w))) w h) as C.
    destruct (FirestoreClient _ w h) as [[[]|e] dF]; cbn [snd] in C;
      apply client_events_print_nothing in C.
    + cbn [String.eqb Ascii.eqb Bool.eqb] in Hrun.
      pose proof (publish_all_run (read_globals w) w
                    (h ++ dF ++ [EPrint started_line])) as P.
      destruct (publish_all (read_globals w) w _) as [[[]|e] dP] eqn:EP;
        cbn [fst snd] in P; injection Hrun as <- <-.
      * split.
        -- intros _. exists (dF ++ EPrint started_line :: dP).
           rewrite <- app_assoc. reflexivity.
        -- intros _. now exists dF, dP.
      * split; [discriminate|]. intros Hin. exfalso.
        rewrite prints_app, C in Hin. cbn [app prints In] in Hin.
        destruct Hin as [Hl|Hin]; [lines_differ Hl|].
        exact (publish_run_not_finished _ _ _ _ P Hin).
    + injection Hrun as <- <-. split; [discriminate|].
      rewrite C. intros [].
Qed.

End StartupMore.

(** ** The further theorems at work on the sample installation *)

Section FurtherOnTheSample.

Import Py agent1_core firestore_client.

Lemma update_page_body_is_printable_ascii_witness :
  printable_ascii
    (data (update_request Sample.globals "home-1" "<h1>HUSIN — Deals</h1>"))
  = true.
Proof.
  apply (update_page_body_is_printable_ascii Sample.globals
           (Some "home-1"%string) "<h1>HUSIN — Deals</h1>" Sample.world []).
  left; reflexivity.
Defined.

Lemma publish_all_puts_only_to_configured_pages_witness :
  exists p html,
    truthy (of_opt (page_id Sample.globals p)) = true
    /\ "https://api.systeme.io/sites/site-9/pages/terms-7"%string
       = page_url Sample.globals (page_id Sample.globals p)
    /\ VDict [("Content-Type", VStr "application/json");
              ("X-API-Key", VStr "secret")]%string
       = VDict [("Content-Type", VStr "application/json");
                ("X-API-Key", of_opt (SYSTEME_API_KEY Sample.globals))]%string
    /\ json_dumps
         (VDict [("content",
                  VStr (static_template "Terms & Conditions" terms_body))]%string)
       = json_dumps (VDict [("content", VStr html)]%string)
    /\ 60%Z = 60%Z.
Proof.
  apply (publish_all_puts_only_to_configured_pages Sample.globals Sample.world []
           (update_request Sample.globals "terms-7"
              (static_template "Terms & Conditions" terms_body))).
  vm_compute. right. right. left. reflexivity.
Defined.

Lemma FirestoreClient_initializes_only_once_witness :
  FirestoreClient None Cases.world_initialized []
  = (Returned tt,
     [EEnter "FirestoreClient.__init__" [VNone];
      ELogInfo "Firebase app already initialized; reusing existing app.";
      EFirestoreClient (Returned tt)]).
Proof.
  apply (FirestoreClient_initializes_only_once Cases.world_initialized [] None);
    [discriminate | reflexivity | reflexivity].
Defined.

Lemma FirestoreClient_first_initialization_witness :
  FirestoreClient None Cases.world_bad_certificate []
  = (Raised Cases.bad_certificate,
     [EEnter "FirestoreClient.__init__" [VNone];
      ECertificate default_service_account_path
        (Raised Cases.bad_certificate)]).
Proof.
  apply (proj1 (FirestoreClient_first_initialization
                  Cases.world_bad_certificate [] None
                  ltac:(discriminate) eq_refl eq_refl)).
  reflexivity.
Defined.

Lemma FirestoreClient_argument_overrides_environment_witness :
  FirestoreClient (Some "/etc/husin/key.json"%string)
    (with_environ (fun _ => Some "/tmp/other.json"%string) Sample.world) []
  = FirestoreClient (Some "/etc/husin/key.json"%string) Sample.world [].
Proof.
  apply (FirestoreClient_argument_overrides_environment Sample.world []
           "/etc/husin/key.json" (fun _ => Some "/tmp/other.json"%string)).
  discriminate.
Defined.

Lemma FirestoreClient_falls_back_on_environment_witness :
  fst (FirestoreClient None Sample.world [])
  = fst (FirestoreClient (Some default_service_account_path) Sample.world [])
  /\ tl (snd (FirestoreClient None Sample.world []))
     = tl (snd (FirestoreClient (Some default_service_account_path)
                  Sample.world [])).
Proof.
  exact (FirestoreClient_falls_back_on_environment Sample.world [] None
           (or_introl eq_refl)).
Defined.

Lemma startup_stops_when_the_client_fails_witness :
  module_body "__main__" Cases.world_bad_certificate []
  = (Raised Cases.bad_certificate,
     [EEnter "FirestoreClient.__init__" [VStr default_service_account_path];
      ECertificate default_service_account_path
        (Raised Cases.bad_certificate)])
  /\ forallb client_event
       [EEnter "FirestoreClient.__init__" [VStr default_service_account_path];
        ECertificate default_service_account_path
          (Raised Cases.bad_certificate)] = true.
Proof.
  exact (startup_stops_when_the_client_fails "__main__"
           Cases.world_bad_certificate [] Cases.bad_certificate _
           eq_refl eq_refl eq_refl).
Defined.

Lemma import_does_not_publish_witness :
  forallb client_event (snd (module_body "agent1_core" Sample.world [])) = true.
Proof.
  apply (proj1 (import_does_not_publish "agent1_core" Sample.world []
                  ltac:(discriminate))).
Defined.

Lemma script_runs_one_publish_cycle_witness :
  fst (module_body "__main__" Sample.world []) = Returned tt
  /\ fst (module_body "__main__" Sample.world_renderer_fails [])
     = Raised {| exc_type := "ValueError"; exc_str := "no categories" |}.
Proof.
  split.
  - rewrite (script_runs_one_publish_cycle Sample.world []
               (snd (FirestoreClient (Some default_service_account_path)
                       Sample.world []))
               eq_refl eq_refl eq_refl).
    reflexivity.
  - rewrite (script_runs_one_publish_cycle Sample.world_renderer_fails []
               (snd (FirestoreClient (Some default_service_account_path)
                       Sample.world_renderer_fails []))
               eq_refl eq_refl eq_refl).
    reflexivity.
Defined.

Lemma script_prints_finished_only_after_the_cycle_witness :
  exists before,
    snd (module_body "__main__" Sample.world [])
    = before ++ [EPrint (finished_line "0.42")].
Proof.
  apply (proj1 (script_prints_finished_only_after_the_cycle Sample.world []
                  (fst (module_body "__main__" Sample.world []))
                  (snd (module_body "__main__" Sample.world []))
                  eq_refl)).
  reflexivity.
Defined.

End FurtherOnTheSample.
